(** * MMA8452Q accelerometer driver: a shallow embedding of MMA8452Q.cpp

    The driver talks to the sensor through the Arduino [Wire] object.  The
    embedding threads one explicit state through every method: the driver
    object ([this]), the [Wire] buffers, the device on the other end of the
    bus, and a log of the bus transactions issued so far.

    Bytes and ints are [Z]; every implicit C conversion to [byte] or [short]
    is written out with [to_byte] and [to_short]. *)

From Stdlib Require Import ZArith List Lia Bool QArith.
From Stdlib Require Import Floats.SpecFloat.
Import ListNotations.
Local Open Scope Z_scope.

(** ** Machine integers *)

Definition is_byte (v : Z) : Prop := 0 <= v < 256.

(** Conversion to [byte] (uint8_t): reduction modulo 2^8. *)
Definition to_byte (v : Z) : Z := v mod 256.

(** Conversion to [short] (16 bits, two's complement). *)
Definition to_short (v : Z) : Z := (v + 32768) mod 65536 - 32768.

(** ** binary32 arithmetic

    The C type [float] is IEEE 754 binary32: 24 bits of precision, exponent
    bound 128.  The operations are the ones of the standard library's
    executable specification of IEEE arithmetic. *)

Definition float : Type := spec_float.
Definition float_prec : Z := 24.
Definition float_emax : Z := 128.

(** [(float) v] for an integer [v]. *)
Definition float_of_int (v : Z) : float :=
  binary_normalize float_prec float_emax v 0 false.

Definition float_div (a b : float) : float := SFdiv float_prec float_emax a b.
Definition float_mul (a b : float) : float := SFmul float_prec float_emax a b.

(** The rational number a finite float stands for; [None] for infinities and
    NaN. *)
Definition float_value (f : float) : option Q :=
  match f with
  | S754_zero _ => Some (0 # 1)%Q
  | S754_finite s m e =>
      let mag := match e with
                 | Zneg p => (Zpos m # Pos.pow 2 p)%Q
                 | _ => inject_Z (Zpos m * 2 ^ e)
                 end in
      Some (if s then Qopp mag else mag)
  | _ => None
  end.

(** ** What MMA8452Q.h declares *)

(** The registers the driver names.  MMA8452Q.h, which gives them their
    addresses, is not among the sources, so the address of a register is a
    parameter of the development (see [MMA8452Q_h] below). *)
Inductive MMA8452Q_Register : Type :=
| STATUS_MMA8452Q | OUT_X_MSB | WHO_AM_I | XYZ_DATA_CFG
| PL_STATUS | PL_CFG | PL_COUNT
| PULSE_CFG | PULSE_SRC | PULSE_THSX | PULSE_THSY | PULSE_THSZ
| PULSE_TMLT | PULSE_LTCY | PULSE_WIND
| CTRL_REG1.

Inductive MMA8452Q_Scale : Type := SCALE_2G | SCALE_4G | SCALE_8G.

(** Modelled from the spec: the enumerators of [MMA8452Q_Scale] are declared
    in MMA8452Q.h, which is missing.  The spec gives the range in g as one of
    2, 4, 8 and [read] uses [(float)(scale)] as that range; [setScale]'s
    comment ("00 = 2G, 01 = 4G, 10 = 8G" for [fsr >> 2]) agrees. *)
Definition scale_val (s : MMA8452Q_Scale) : Z :=
  match s with SCALE_2G => 2 | SCALE_4G => 4 | SCALE_8G => 8 end.

Inductive MMA8452Q_ODR : Type :=
| ODR_800 | ODR_400 | ODR_200 | ODR_100 | ODR_50 | ODR_12 | ODR_6 | ODR_1.

(** Modelled from the spec: the enumerators of [MMA8452Q_ODR] are declared in
    MMA8452Q.h, which is missing.  The rate codes follow the order in which
    the spec and [setODR]'s comment list the rates, from 800 Hz down. *)
Definition odr_val (o : MMA8452Q_ODR) : Z :=
  match o with
  | ODR_800 => 0 | ODR_400 => 1 | ODR_200 => 2 | ODR_100 => 3
  | ODR_50 => 4 | ODR_12 => 5 | ODR_6 => 6 | ODR_1 => 7
  end.

(** The part of MMA8452Q.h that neither the sources nor the spec fix: the
    register addresses and the byte [readPL] returns for a lockout. *)
Class MMA8452Q_h : Type := {
  reg_addr : MMA8452Q_Register -> Z;
  LOCKOUT : Z;
  LOCKOUT_byte : is_byte LOCKOUT
}.

(** ** The bus *)

(** The device at the far end of the two-wire bus: it takes the bytes of a
    write transaction and supplies bytes when the master requests some.  It
    may supply fewer bytes than requested. *)
Class I2CSlave (S : Type) : Type := {
  slave_recv : Z -> list Z -> bool -> S -> S;
  slave_send : Z -> nat -> S -> list Z * S
}.

(** Modelled from the spec: the Wire library is an external collaborator;
    these are its transmit and receive buffers behind the capabilities
    begin-transaction, write, end-transaction, request, available and read. *)
Record TwoWire : Type := mkWire {
  txAddress : Z;
  txBuffer : list Z;
  rxBuffer : list Z
}.

(** The transactions seen on the bus, oldest first. *)
Inductive BusEvent : Type :=
| EvTransmit (addr : Z) (payload : list Z) (stop : bool)
| EvRequest (addr : Z) (quantity : Z) (received : list Z).

(** A transmission that carries data after the register address. *)
Definition is_register_write (ev : BusEvent) : bool :=
  match ev with
  | EvTransmit _ (_ :: _ :: _) _ => true
  | _ => false
  end.

(** ** The driver object *)

Record MMA8452Q : Type := mkMMA8452Q {
  address : Z;
  scale : MMA8452Q_Scale;
  x : Z;
  y : Z;
  z : Z;
  cx : float;
  cy : float;
  cz : float
}.

(** [MMA8452Q::MMA8452Q(byte addr)]: only [address] is assigned; the other
    members keep whatever the object's memory held. *)
Definition MMA8452Q_new (addr : Z) (mem : MMA8452Q) : MMA8452Q :=
  mkMMA8452Q (to_byte addr) (scale mem) (x mem) (y mem) (z mem)
             (cx mem) (cy mem) (cz mem).

(** ** Pure pieces of the methods *)

(** [((short)(hi<<8 | lo)) >> 4], the expression [read] evaluates per axis.
    [Z.shiftr] on a negative number is the arithmetic shift. *)
Definition sample12 (hi lo : Z) : Z :=
  Z.shiftr (to_short (Z.lor (Z.shiftl hi 8) lo)) 4.

(** [(float) v / (float)(1<<11) * (float)(scale)]. *)
Definition calibrate (v : Z) (s : MMA8452Q_Scale) : float :=
  float_mul (float_div (float_of_int v) (float_of_int (Z.shiftl 1 11)))
            (float_of_int (scale_val s)).

(** [buffer[i] = v]; an index past the end is not modelled (the C code would
    write outside the array) and leaves the list as it is. *)
Fixpoint list_set (i : nat) (v : Z) (l : list Z) : list Z :=
  match l, i with
  | [], _ => []
  | _ :: t, O => v :: t
  | h :: t, S j => h :: list_set j v t
  end.

(** ** A mock device: a register file with an auto-incrementing pointer *)

Record MockDevice : Type := mkMock {
  regs : Z -> Z;
  pointer : Z
}.

Fixpoint store_from (a : Z) (data : list Z) (f : Z -> Z) : Z -> Z :=
  match data with
  | [] => f
  | v :: rest => store_from (a + 1) rest (fun k => if k =? a then v else f k)
  end.

#[global] Instance mock_slave : I2CSlave MockDevice := {
  slave_recv _ payload _ d :=
    match payload with
    | [] => d
    | r :: data => mkMock (store_from r data (regs d)) r
    end;
  slave_send _ n d :=
    (map (fun i => regs d (pointer d + Z.of_nat i)) (seq 0 n), d)
}.

(** A bus with nothing on it: writes are lost and no byte ever comes back. *)
Inductive SilentBus : Type := silent.

#[global] Instance silent_slave : I2CSlave SilentBus := {
  slave_recv _ _ _ d := d;
  slave_send _ _ d := ([], d)
}.

(** ** The state and its monad *)

Section Driver.

Context {S : Type} {slave : I2CSlave S} {hdr : MMA8452Q_h}.

Record World : Type := mkWorld {
  self : MMA8452Q;
  Wire : TwoWire;
  device : S;
  trace : list BusEvent
}.

Definition M (A : Type) : Type := World -> A * World.

Definition ret {A} (a : A) : M A := fun w => (a, w).

Definition bind {A B} (c : M A) (k : A -> M B) : M B :=
  fun w => let (a, w') := c w in k a w'.

Notation "v <- c ;; k" := (bind c (fun v => k))
  (at level 61, c at next level, right associativity).
Notation "c ;; k" := (bind c (fun _ => k))
  (at level 61, right associativity).

Definition this : M MMA8452Q := fun w => (self w, w).

Definition set_self (f : MMA8452Q -> MMA8452Q) : M unit :=
  fun w => (tt, mkWorld (f (self w)) (Wire w) (device w) (trace w)).

Definition put_scale (v : MMA8452Q_Scale) : M unit :=
  set_self (fun o => mkMMA8452Q (address o) v (x o) (y o) (z o)
                                (cx o) (cy o) (cz o)).

Definition put_xyz (vx vy vz : Z) : M unit :=
  set_self (fun o => mkMMA8452Q (address o) (scale o) vx vy vz
                                (cx o) (cy o) (cz o)).

Definition put_cxyz (vx vy vz : float) : M unit :=
  set_self (fun o => mkMMA8452Q (address o) (scale o) (x o) (y o) (z o)
                                vx vy vz).

(** [for (int i = 0; i < len; i++) acc = body(i, acc)], run [n] times
    starting at index [i]. *)
Fixpoint for_loop {A} (n : nat) (i : nat) (body : nat -> A -> M A) (acc : A)
  : M A :=
  match n with
  | O => ret acc
  | Datatypes.S n' => acc' <- body i acc ;; for_loop n' (Datatypes.S i) body acc'
  end.

(** ** Wire

    Modelled from the spec: the Wire library is not part of the repository.
    A transmission is buffered by [write] and handed to the device, whole, by
    [endTransmission]; [requestFrom] fills the receive buffer with what the
    device supplies, at most the quantity asked for; [read] returns -1 on an
    empty buffer. *)

Definition Wire_begin : M unit :=
  fun w => (tt, mkWorld (self w) (mkWire 0 [] []) (device w) (trace w)).

Definition Wire_beginTransmission (addr : Z) : M unit :=
  fun w => (tt, mkWorld (self w) (mkWire addr [] (rxBuffer (Wire w)))
                        (device w) (trace w)).

Definition Wire_write (b : Z) : M unit :=
  fun w => (tt, mkWorld (self w)
                        (mkWire (txAddress (Wire w))
                                (txBuffer (Wire w) ++ [to_byte b])
                                (rxBuffer (Wire w)))
                        (device w) (trace w)).

Definition Wire_endTransmission (stop : bool) : M unit :=
  fun w =>
    let a := txAddress (Wire w) in
    let payload := txBuffer (Wire w) in
    (tt, mkWorld (self w) (mkWire a [] (rxBuffer (Wire w)))
                 (slave_recv a payload stop (device w))
                 (trace w ++ [EvTransmit a payload stop])).

Definition Wire_requestFrom (addr quantity : Z) : M unit :=
  fun w =>
    let n := Z.to_nat quantity in
    let (bytes, d) := slave_send addr n (device w) in
    let got := map to_byte (firstn n bytes) in
    (tt, mkWorld (self w) (mkWire (txAddress (Wire w)) (txBuffer (Wire w)) got)
                 d (trace w ++ [EvRequest addr quantity got])).

Definition Wire_available : M Z :=
  fun w => (Z.of_nat (length (rxBuffer (Wire w))), w).

Definition Wire_read : M Z :=
  fun w =>
    match rxBuffer (Wire w) with
    | [] => (-1, w)
    | b :: rest =>
        (b, mkWorld (self w)
                    (mkWire (txAddress (Wire w)) (txBuffer (Wire w)) rest)
                    (device w) (trace w))
    end.

(** ** Register access *)

(** [writeRegisters]: the register address, then [len] bytes of [buffer], in
    one transmission.  The parameter is a [byte len], so the argument is
    narrowed on entry.  [buffer[i]] past the end of the list reads as 0. *)
Definition writeRegisters (reg : MMA8452Q_Register) (buffer : list Z) (len : Z)
  : M unit :=
  let len := to_byte len in
  o <- this ;;
  Wire_beginTransmission (address o) ;;
  Wire_write (reg_addr reg) ;;
  for_loop (Z.to_nat len) 0
           (fun i _ => Wire_write (nth i buffer 0)) tt ;;
  Wire_endTransmission true.

Definition writeRegister (reg : MMA8452Q_Register) (data : Z) : M unit :=
  writeRegisters reg [to_byte data] 1.

Definition readRegister (reg : MMA8452Q_Register) : M Z :=
  o <- this ;;
  Wire_beginTransmission (address o) ;;
  Wire_write (reg_addr reg) ;;
  Wire_endTransmission false ;;
  Wire_requestFrom (address o) 1 ;;
  n <- Wire_available ;;
  if negb (n =? 0) then
    b <- Wire_read ;; ret (to_byte b)
  else
    ret 0.

(** [readRegisters] returns the contents of [buffer] on exit.  The
    parameter is a [byte len], so the argument is narrowed on entry. *)
Definition readRegisters (reg : MMA8452Q_Register) (buffer : list Z) (len : Z)
  : M (list Z) :=
  let len := to_byte len in
  o <- this ;;
  Wire_beginTransmission (address o) ;;
  Wire_write (reg_addr reg) ;;
  Wire_endTransmission false ;;
  Wire_requestFrom (address o) len ;;
  n <- Wire_available ;;
  if n =? len then
    for_loop (Z.to_nat len) 0
             (fun i buf => b <- Wire_read ;; ret (list_set i (to_byte b) buf))
             buffer
  else
    ret buffer.

(** ** The methods *)

Definition standby : M unit :=
  c <- readRegister CTRL_REG1 ;;
  writeRegister CTRL_REG1 (Z.land c (Z.lnot 0x01)).

Definition active : M unit :=
  c <- readRegister CTRL_REG1 ;;
  writeRegister CTRL_REG1 (Z.lor c 0x01).

Definition setScale (fsr : MMA8452Q_Scale) : M unit :=
  cfg <- readRegister XYZ_DATA_CFG ;;
  let cfg := to_byte (Z.land cfg 0xFC) in
  let cfg := to_byte (Z.lor cfg (Z.shiftr (scale_val fsr) 2)) in
  writeRegister XYZ_DATA_CFG cfg.

Definition setODR (odr : MMA8452Q_ODR) : M unit :=
  ctrl <- readRegister CTRL_REG1 ;;
  let ctrl := to_byte (Z.land ctrl 0xC7) in
  let ctrl := to_byte (Z.lor ctrl (Z.shiftl (odr_val odr) 3)) in
  writeRegister CTRL_REG1 ctrl.

Definition setupPL : M unit :=
  c <- readRegister PL_CFG ;;
  writeRegister PL_CFG (Z.lor c 0x40) ;;
  writeRegister PL_COUNT 0x50.

Definition setupTap (xThs yThs zThs : Z) : M unit :=
  let xThs := to_byte xThs in
  let yThs := to_byte yThs in
  let zThs := to_byte zThs in
  let temp := 0 in
  temp <- (if Z.land xThs 0x80 =? 0 then
             let temp := to_byte (Z.lor temp 0x3) in
             writeRegister PULSE_THSX xThs ;; ret temp
           else ret temp) ;;
  temp <- (if Z.land yThs 0x80 =? 0 then
             let temp := to_byte (Z.lor temp 0xC) in
             writeRegister PULSE_THSY yThs ;; ret temp
           else ret temp) ;;
  temp <- (if Z.land zThs 0x80 =? 0 then
             let temp := to_byte (Z.lor temp 0x30) in
             writeRegister PULSE_THSZ zThs ;; ret temp
           else ret temp) ;;
  writeRegister PULSE_CFG (Z.lor temp 0x40) ;;
  writeRegister PULSE_TMLT 0x30 ;;
  writeRegister PULSE_LTCY 0xA0 ;;
  writeRegister PULSE_WIND 0xFF.

Definition readTap : M Z :=
  tapStat <- readRegister PULSE_SRC ;;
  if negb (Z.land tapStat 0x80 =? 0) then
    ret (to_byte (Z.land tapStat 0x7F))
  else
    ret 0.

Definition readPL : M Z :=
  plStat <- readRegister PL_STATUS ;;
  if negb (Z.land plStat 0x40 =? 0) then
    ret (to_byte LOCKOUT)
  else
    ret (to_byte (Z.shiftr (Z.land plStat 0x6) 1)).

Definition available : M Z :=
  s <- readRegister STATUS_MMA8452Q ;;
  ret (to_byte (Z.shiftr (Z.land s 0x08) 3)).

Definition init (fsr : MMA8452Q_Scale) (odr : MMA8452Q_ODR) : M Z :=
  put_scale fsr ;;
  Wire_begin ;;
  c <- readRegister WHO_AM_I ;;
  if negb (c =? 0x2A) then
    ret 0
  else
    standby ;;
    o <- this ;;
    setScale (scale o) ;;
    setODR odr ;;
    setupPL ;;
    setupTap 0x80 0x80 0x08 ;;
    active ;;
    ret 1.

(** [read]; [rawData] is what the local array holds before it is filled (it
    is not initialised by the code). *)
Definition read (rawData : list Z) : M unit :=
  rawData <- readRegisters OUT_X_MSB rawData 6 ;;
  put_xyz (sample12 (nth 0 rawData 0) (nth 1 rawData 0))
          (sample12 (nth 2 rawData 0) (nth 3 rawData 0))
          (sample12 (nth 4 rawData 0) (nth 5 rawData 0)) ;;
  o <- this ;;
  put_cxyz (calibrate (x o) (scale o))
           (calibrate (y o) (scale o))
           (calibrate (z o) (scale o)).

(** ** What the device answers

    [select_reg reg w] is the device once it has taken the one-byte
    transmission that names [reg]; [bus_reply reg len w] is what then arrives
    in Wire's receive buffer when [len] bytes are requested: at most [len]
    bytes, maybe fewer. *)

Definition select_reg (reg : MMA8452Q_Register) (w : World) : S :=
  slave_recv (address (self w)) [to_byte (reg_addr reg)] false (device w).

Definition bus_reply (reg : MMA8452Q_Register) (len : Z) (w : World) : list Z :=
  map to_byte
      (firstn (Z.to_nat len)
              (fst (slave_send (address (self w)) (Z.to_nat len)
                               (select_reg reg w)))).

(** The events of one [readRegister]/[readRegisters] and of one
    [writeRegister]. *)
Definition read_events (reg : MMA8452Q_Register) (len : Z) (w : World)
  : list BusEvent :=
  [EvTransmit (address (self w)) [to_byte (reg_addr reg)] false;
   EvRequest (address (self w)) len (bus_reply reg len w)].

Definition write_event (a : Z) (reg : MMA8452Q_Register) (data : Z)
  : BusEvent :=
  EvTransmit a [to_byte (reg_addr reg); to_byte data] true.

(** The state after [readRegister reg] and after [writeRegister reg data]. *)
Definition after_read (reg : MMA8452Q_Register) (w : World) : World :=
  mkWorld (self w)
          (mkWire (address (self w)) [] (tl (bus_reply reg 1 w)))
          (snd (slave_send (address (self w)) 1%nat (select_reg reg w)))
          (trace w ++ read_events reg 1 w).

Definition after_write (reg : MMA8452Q_Register) (data : Z) (w : World)
  : World :=
  mkWorld (self w)
          (mkWire (address (self w)) [] (rxBuffer (Wire w)))
          (slave_recv (address (self w))
                      [to_byte (reg_addr reg); to_byte data] true (device w))
          (trace w ++ [write_event (address (self w)) reg data]).

(** The state in which [init] reads WHO_AM_I: [scale] assigned, Wire begun. *)
Definition after_begin (fsr : MMA8452Q_Scale) (w : World) : World :=
  snd ((put_scale fsr ;; Wire_begin) w).

End Driver.

Arguments World S : clear implicits.
Arguments M S A : clear implicits.

(** ** Concrete instances for examples *)

(** The register addresses of the MMA8452Q data sheet, with 0x40 for
    [LOCKOUT]. *)
Definition datasheet_h : MMA8452Q_h :=
  {| reg_addr := fun r =>
       match r with
       | STATUS_MMA8452Q => 0x00 | OUT_X_MSB => 0x01 | WHO_AM_I => 0x0D
       | XYZ_DATA_CFG => 0x0E
       | PL_STATUS => 0x10 | PL_CFG => 0x11 | PL_COUNT => 0x12
       | PULSE_CFG => 0x21 | PULSE_SRC => 0x22
       | PULSE_THSX => 0x23 | PULSE_THSY => 0x24 | PULSE_THSZ => 0x25
       | PULSE_TMLT => 0x26 | PULSE_LTCY => 0x27 | PULSE_WIND => 0x28
       | CTRL_REG1 => 0x2A
       end;
     LOCKOUT := 0x40;
     LOCKOUT_byte := ltac:(split; [discriminate | reflexivity]) |}.

(** A driver object at bus address 0x1D, scale not yet chosen by [init]. *)
Definition fresh_driver : MMA8452Q :=
  MMA8452Q_new 0x1D
    (mkMMA8452Q 0 SCALE_2G 0 0 0
                (S754_zero false) (S754_zero false) (S754_zero false)).

(** A mock device whose register file is [f]. *)
Definition mock_world (f : Z -> Z) : World MockDevice :=
  mkWorld fresh_driver (mkWire 0 [] []) (mkMock f 0) [].

(** A register file for examples: WHO_AM_I (at 0x0D) reads 0x2A and every
    other register reads [v]. *)
Definition identified_regs (v : Z) (k : Z) : Z :=
  if k =? 0x0D then 0x2A else v.

(** The same driver on a bus where nothing answers. *)
Definition silent_world : World SilentBus :=
  mkWorld fresh_driver (mkWire 0 [] []) silent [].

(** The integers [lo], [lo+1], ..., [lo+n-1]. *)
Fixpoint Zrange (lo : Z) (n : nat) : list Z :=
  match n with
  | O => []
  | Datatypes.S k => lo :: Zrange (lo + 1) k
  end.

(** The float [f] is finite and stands for the rational [q]. *)
Definition represents (f : float) (q : Q) : Prop :=
  exists q', float_value f = Some q' /\ Qeq q' q.

(** Does the binary32 result of [calibrate] stand for exactly
    [v / 2048 * scale_val s]? *)
Definition calibrate_exact (v : Z) (s : MMA8452Q_Scale) : bool :=
  match float_value (calibrate v s) with
  | Some q => Qeq_bool q (inject_Z v / inject_Z 2048 * inject_Z (scale_val s))
  | None => false
  end.

(** ** Reading the log *)

(** The bus address an event is directed to. *)
Definition event_addr (ev : BusEvent) : Z :=
  match ev with
  | EvTransmit a _ _ => a
  | EvRequest a _ _ => a
  end.

(** The register writes among [evs], oldest first: the register address byte
    and the first data byte of every transmission that carries data. *)
Fixpoint register_writes (evs : list BusEvent) : list (Z * Z) :=
  match evs with
  | [] => []
  | EvTransmit _ (r :: d :: _) _ :: rest => (r, d) :: register_writes rest
  | _ :: rest => register_writes rest
  end.

(** [w'] comes from [w] by bus traffic addressed to the driver's own device
    only, whose register writes go to the registers at [targets], in that
    order; the driver's bus address is the same in both. *)
Definition emits {S : Type} (w w' : World S) (targets : list Z) : Prop :=
  address (self w') = address (self w) /\
  exists evs,
    trace w' = trace w ++ evs /\
    map fst (register_writes evs) = targets /\
    Forall (fun ev => event_addr ev = address (self w)) evs.

(** * Properties *)

Arguments to_byte : simpl never.
Arguments to_short : simpl never.

(** Bounds between numerals, by computation. *)
Ltac bounds := split; [discriminate | reflexivity].

Lemma to_byte_range v : is_byte (to_byte v).
Proof. unfold is_byte, to_byte. apply Z.mod_pos_bound. lia. Qed.

Lemma to_byte_id v : is_byte v -> to_byte v = v.
Proof. unfold is_byte, to_byte. intros H. apply Z.mod_small. exact H. Qed.

Lemma to_byte_idem v : to_byte (to_byte v) = to_byte v.
Proof. apply to_byte_id, to_byte_range. Qed.

Lemma to_byte_testbit v i : 0 <= i < 8 -> Z.testbit (to_byte v) i = Z.testbit v i.
Proof.
  intros Hi. unfold to_byte. change 256 with (2 ^ 8).
  apply Z.mod_pow2_bits_low. lia.
Qed.

Lemma to_short_range v : -32768 <= to_short v <= 32767.
Proof.
  unfold to_short.
  pose proof (Z.mod_pos_bound (v + 32768) 65536 ltac:(lia)). lia.
Qed.

Lemma Zrange_In n : forall lo v,
  lo <= v < lo + Z.of_nat n -> In v (Zrange lo n).
Proof.
  induction n as [|n IH]; intros lo v Hv; [lia|].
  cbn [Zrange]. destruct (Z.eq_dec v lo) as [->|Hne]; [now left|].
  right. apply IH. lia.
Qed.

(** A property of bytes that a boolean function decides holds of every byte
    as soon as it holds of the 256 of them. *)
Lemma byte_forallb (P : Z -> bool) :
  forallb P (Zrange 0 256) = true -> forall b, is_byte b -> P b = true.
Proof.
  intros Hall b Hb. rewrite forallb_forall in Hall. apply Hall.
  apply Zrange_In. unfold is_byte in Hb. lia.
Qed.

Lemma shiftr4_div v : Z.shiftr v 4 = v / 16.
Proof. rewrite Z.shiftr_div_pow2 by lia. reflexivity. Qed.

Lemma sample12_range hi lo : -2048 <= sample12 hi lo <= 2047.
Proof.
  unfold sample12. rewrite shiftr4_div.
  pose proof (to_short_range (Z.lor (Z.shiftl hi 8) lo)) as Hr.
  split.
  - apply Z.div_le_lower_bound; lia.
  - apply Z.lt_succ_r. apply Z.div_lt_upper_bound; lia.
Qed.

(** For bytes, [hi<<8 | lo] is the big-endian number [256*hi + lo]: the two
    operands of the or have no bit in common. *)
Lemma byte_high_bits lo n : is_byte lo -> 8 <= n -> Z.testbit lo n = false.
Proof.
  unfold is_byte. intros Hlo Hn.
  destruct (Z.eq_dec lo 0) as [->|Hnz]; [apply Z.bits_0|].
  apply Z.bits_above_log2; [lia|].
  apply Z.log2_lt_pow2; [lia|].
  apply Z.lt_le_trans with (2 ^ 8); [change (2 ^ 8) with 256; lia|].
  apply Z.pow_le_mono_r; lia.
Qed.

Lemma big_endian_pair hi lo :
  is_byte hi -> is_byte lo -> Z.lor (Z.shiftl hi 8) lo = 256 * hi + lo.
Proof.
  intros Hhi Hlo.
  assert (Hdisjoint : Z.land (Z.shiftl hi 8) lo = 0).
  { apply Z.bits_inj'. intros n Hn. rewrite Z.land_spec, Z.bits_0.
    destruct (Z.lt_ge_cases n 8) as [Hlt|Hge].
    - rewrite Z.shiftl_spec_low by lia. reflexivity.
    - rewrite (byte_high_bits lo n Hlo Hge). apply andb_false_r. }
  rewrite <- Z.lxor_lor, <- Z.add_nocarry_lxor by exact Hdisjoint.
  rewrite Z.shiftl_mul_pow2 by lia. change (2 ^ 8) with 256. lia.
Qed.

(** The tests and masks of [readTap] and [readPL], bit by bit. *)
Lemma tap_bits b :
  is_byte b ->
  (Z.land b 0x80 =? 0) = negb (Z.testbit b 7) /\
  to_byte (Z.land b 0x7F) = b mod 128.
Proof.
  intros Hb.
  pose proof (byte_forallb
    (fun b => Bool.eqb (Z.land b 0x80 =? 0) (negb (Z.testbit b 7))
              && (to_byte (Z.land b 0x7F) =? b mod 128))
    ltac:(vm_compute; reflexivity) b Hb) as H.
  apply andb_true_iff in H. destruct H as [H1 H2].
  split; [apply eqb_prop, H1 | apply Z.eqb_eq, H2].
Qed.

Lemma pl_bits b :
  is_byte b ->
  (Z.land b 0x40 =? 0) = negb (Z.testbit b 6) /\
  to_byte (Z.shiftr (Z.land b 0x6) 1) =
    Z.b2z (Z.testbit b 1) + 2 * Z.b2z (Z.testbit b 2).
Proof.
  intros Hb.
  pose proof (byte_forallb
    (fun b => Bool.eqb (Z.land b 0x40 =? 0) (negb (Z.testbit b 6))
              && (to_byte (Z.shiftr (Z.land b 0x6) 1) =?
                  Z.b2z (Z.testbit b 1) + 2 * Z.b2z (Z.testbit b 2)))
    ltac:(vm_compute; reflexivity) b Hb) as H.
  apply andb_true_iff in H. destruct H as [H1 H2].
  split; [apply eqb_prop, H1 | apply Z.eqb_eq, H2].
Qed.

(** The byte [setScale] writes back, for a byte [c] read: the two low bits
    are the range code, bits 2 to 7 are those of [c]. *)
Lemma scale_bits c fsr :
  is_byte c ->
  let n := to_byte (Z.lor (to_byte (Z.land c 0xFC))
                          (Z.shiftr (scale_val fsr) 2)) in
  let code := match fsr with SCALE_2G => 0 | SCALE_4G => 1 | SCALE_8G => 2 end in
  n = Z.lor (Z.land c 0xFC) code /\
  n mod 4 = code /\
  (forall i, 2 <= i < 8 -> Z.testbit n i = Z.testbit c i).
Proof.
  intros Hc n code.
  pose (chk := fun fsr c =>
    let n := to_byte (Z.lor (to_byte (Z.land c 0xFC))
                            (Z.shiftr (scale_val fsr) 2)) in
    let code := match fsr with
                | SCALE_2G => 0 | SCALE_4G => 1 | SCALE_8G => 2 end in
    (n =? Z.lor (Z.land c 0xFC) code) && (n mod 4 =? code)
    && forallb (fun i => Bool.eqb (Z.testbit n i) (Z.testbit c i))
               (Zrange 2 6)).
  assert (H : chk fsr c = true).
  { destruct fsr;
      [apply (byte_forallb (chk SCALE_2G))
      |apply (byte_forallb (chk SCALE_4G))
      |apply (byte_forallb (chk SCALE_8G))];
      solve [assumption | vm_compute; reflexivity]. }
  unfold chk in H. cbv zeta in H. fold n code in H.
  apply andb_true_iff in H. destruct H as [H Hbits].
  apply andb_true_iff in H. destruct H as [Hn Hmod].
  split; [apply Z.eqb_eq, Hn|]. split; [apply Z.eqb_eq, Hmod|].
  intros i Hi. rewrite forallb_forall in Hbits.
  apply eqb_prop, Hbits, Zrange_In.
  replace (Z.of_nat 6) with 6 by reflexivity. lia.
Qed.

(** The binary32 computation of [calibrate] is exact on every 12-bit sample
    (and on 2048): checked value by value. *)
Lemma calibrate_table :
  forallb (fun v => calibrate_exact v SCALE_2G && calibrate_exact v SCALE_4G
                    && calibrate_exact v SCALE_8G)
          (Zrange (-2048) 4097) = true.
Proof. vm_compute. reflexivity. Qed.

Lemma calibrate_represents v s :
  -2048 <= v <= 2048 ->
  represents (calibrate v s)
             (inject_Z v / inject_Z 2048 * inject_Z (scale_val s)).
Proof.
  intros Hv. pose proof calibrate_table as Hall.
  rewrite forallb_forall in Hall.
  assert (Hin : In v (Zrange (-2048) 4097)).
  { apply Zrange_In. replace (Z.of_nat 4097) with 4097 by reflexivity. lia. }
  specialize (Hall v Hin).
  apply andb_true_iff in Hall. destruct Hall as [Hall H8].
  apply andb_true_iff in Hall. destruct Hall as [H2 H4].
  assert (Hs : calibrate_exact v s = true) by (destruct s; assumption).
  unfold calibrate_exact in Hs. unfold represents.
  destruct (float_value (calibrate v s)) as [q|]; [|discriminate].
  exists q. split; [reflexivity | apply Qeq_bool_iff, Hs].
Qed.

Section Properties.

Context {S : Type} {slave : I2CSlave S} {hdr : MMA8452Q_h}.

Lemma bind_eq {A B} (c : M S A) (k : A -> M S B) w a w' :
  c w = (a, w') -> bind c k w = k a w'.
Proof. unfold bind. intros ->. reflexivity. Qed.

Lemma writeRegister_eq reg data (w : World S) :
  writeRegister reg data w = (tt, after_write reg data w).
Proof.
  unfold writeRegister, writeRegisters, after_write, write_event, bind, this,
    Wire_beginTransmission, Wire_write, Wire_endTransmission.
  cbv zeta. change (Z.to_nat (to_byte 1)) with 1%nat. cbn.
  rewrite to_byte_idem. reflexivity.
Qed.

Lemma bus_reply_bytes reg len (w : World S) :
  Forall is_byte (bus_reply reg len w).
Proof.
  unfold bus_reply. apply Forall_forall. intros b Hb.
  apply in_map_iff in Hb. destruct Hb as [v [<- _]]. apply to_byte_range.
Qed.

Lemma readRegister_eq reg (w : World S) :
  readRegister reg w = (hd 0 (bus_reply reg 1 w), after_read reg w).
Proof.
  unfold readRegister, after_read, read_events, bus_reply, select_reg, bind,
    this, Wire_beginTransmission, Wire_write, Wire_endTransmission,
    Wire_requestFrom, Wire_available, Wire_read.
  change (Z.to_nat 1) with 1%nat. cbn.
  destruct (slave_send (address (self w)) 1%nat
              (slave_recv (address (self w)) [to_byte (reg_addr reg)] false
                 (device w))) as [bytes d].
  destruct bytes as [|b rest]; unfold ret; cbn; rewrite <- app_assoc;
    [reflexivity|].
  rewrite to_byte_idem. reflexivity.
Qed.

(** One pass of the receive loop of [readRegisters], and the loop itself,
    touch neither the driver object, the device nor the log. *)
Lemma read_body_frame i buf (w : World S) :
  exists v w',
    bind Wire_read (fun b => ret (list_set i (to_byte b) buf)) w = (v, w') /\
    self w' = self w /\ device w' = device w /\ trace w' = trace w.
Proof.
  unfold bind, Wire_read, ret.
  destruct (rxBuffer (Wire w)) as [|b rest]; eauto 10.
Qed.

Lemma read_loop_frame n : forall i buf (w : World S),
  self (snd (for_loop n i
               (fun i buf => bind Wire_read
                               (fun b => ret (list_set i (to_byte b) buf)))
               buf w)) = self w.
Proof.
  induction n as [|n IH]; intros i buf w; [reflexivity|].
  destruct (read_body_frame i buf w) as (v & w' & E & Hs & _).
  cbn [for_loop]. rewrite (bind_eq _ _ _ _ _ E), IH. exact Hs.
Qed.

Lemma read_body_cons i buf b rest (w : World S) :
  rxBuffer (Wire w) = b :: rest ->
  bind Wire_read (fun b => ret (list_set i (to_byte b) buf)) w =
  (list_set i (to_byte b) buf,
   mkWorld (self w) (mkWire (txAddress (Wire w)) (txBuffer (Wire w)) rest)
           (device w) (trace w)).
Proof. unfold bind, Wire_read, ret. intros ->. reflexivity. Qed.

Lemma list_set_middle (pre : list Z) v c buf :
  list_set (length pre) v (pre ++ c :: buf) = (pre ++ [v]) ++ buf.
Proof.
  induction pre as [|p pre IH]; cbn; [reflexivity | now rewrite IH].
Qed.

(** Filling a buffer of [n] slots from a receive buffer that holds [n]
    bytes. *)
Lemma read_loop_fill (bs : list Z) : forall pre buf (w : World S),
  rxBuffer (Wire w) = bs ->
  length buf = length bs ->
  Forall is_byte bs ->
  fst (for_loop (length bs) (length pre)
         (fun i buf => bind Wire_read
                         (fun b => ret (list_set i (to_byte b) buf)))
         (pre ++ buf) w) = pre ++ bs.
Proof.
  induction bs as [|b bs IH]; intros pre buf w Hrx Hlen Hbytes.
  - destruct buf; [reflexivity | discriminate].
  - destruct buf as [|c buf]; [discriminate|].
    inversion Hbytes as [|? ? Hb Hbs]; subst.
    cbn [length for_loop].
    rewrite (bind_eq _ _ _ _ _ (read_body_cons _ _ _ _ _ Hrx)).
    rewrite (to_byte_id b Hb), list_set_middle.
    replace (Datatypes.S (length pre)) with (length (pre ++ [b]))
      by (rewrite length_app; cbn; lia).
    rewrite IH; [now rewrite <- app_assoc | reflexivity | | assumption].
    cbn in Hlen. lia.
Qed.

(** [readRegisters]: the buffer is handed back as it was unless exactly
    [len] bytes arrived ([len] as the byte it is narrowed to), and then it
    holds those bytes. *)
Lemma readRegisters_short reg buffer len (w : World S) :
  Z.of_nat (length (bus_reply reg (to_byte len) w)) <> to_byte len ->
  fst (readRegisters reg buffer len w) = buffer.
Proof.
  intros Hn. apply Z.eqb_neq in Hn. revert Hn.
  unfold readRegisters. cbv zeta. generalize (to_byte len). intros n.
  unfold bus_reply, select_reg, bind, this,
    Wire_beginTransmission, Wire_write, Wire_endTransmission,
    Wire_requestFrom, Wire_available.
  cbn.
  destruct (slave_send (address (self w)) (Z.to_nat n)
              (slave_recv (address (self w)) [to_byte (reg_addr reg)]
                 false (device w))) as [bytes d].
  cbn. intros ->. reflexivity.
Qed.

Lemma readRegisters_full reg buffer len (w : World S) :
  Z.of_nat (length (bus_reply reg (to_byte len) w)) = to_byte len ->
  length buffer = length (bus_reply reg (to_byte len) w) ->
  fst (readRegisters reg buffer len w) = bus_reply reg (to_byte len) w.
Proof.
  intros Hn Hl. pose proof (bus_reply_bytes reg (to_byte len) w) as Hb.
  revert Hn Hl Hb.
  unfold readRegisters. cbv zeta. generalize (to_byte len). intros n.
  unfold bus_reply, select_reg, bind, this,
    Wire_beginTransmission, Wire_write, Wire_endTransmission,
    Wire_requestFrom, Wire_available.
  cbn.
  destruct (slave_send (address (self w)) (Z.to_nat n)
              (slave_recv (address (self w)) [to_byte (reg_addr reg)]
                 false (device w))) as [bytes d].
  cbn. remember (map to_byte (firstn (Z.to_nat n) bytes)) as got eqn:Hgot.
  clear Hgot. intros Hn Hl Hb.
  rewrite (proj2 (Z.eqb_eq _ _) Hn).
  replace (Z.to_nat n) with (length got) by lia.
  apply (read_loop_fill _ [] buffer); [reflexivity | assumption | assumption].
Qed.

Lemma readRegisters_frame reg buffer len (w : World S) :
  self (snd (readRegisters reg buffer len w)) = self w.
Proof.
  unfold readRegisters. cbv zeta. generalize (to_byte len). intros n.
  unfold bind, this, Wire_beginTransmission, Wire_write,
    Wire_endTransmission, Wire_requestFrom, Wire_available.
  cbn.
  destruct (slave_send (address (self w)) (Z.to_nat n)
              (slave_recv (address (self w)) [to_byte (reg_addr reg)]
                 false (device w))) as [bytes d].
  cbn.
  match goal with |- context [if ?c then _ else _] => destruct c end;
    [|reflexivity].
  rewrite read_loop_frame. reflexivity.
Qed.

(** The driver object after [read]: the three samples and their calibrated
    values, computed from the buffer [readRegisters] hands back. *)
Lemma read_self rawData (w : World S) :
  let buf := fst (readRegisters OUT_X_MSB rawData 6 w) in
  let vx := sample12 (nth 0 buf 0) (nth 1 buf 0) in
  let vy := sample12 (nth 2 buf 0) (nth 3 buf 0) in
  let vz := sample12 (nth 4 buf 0) (nth 5 buf 0) in
  self (snd (read rawData w)) =
  mkMMA8452Q (address (self w)) (scale (self w)) vx vy vz
             (calibrate vx (scale (self w)))
             (calibrate vy (scale (self w)))
             (calibrate vz (scale (self w))).
Proof.
  cbv zeta. unfold read, bind at 1.
  pose proof (readRegisters_frame OUT_X_MSB rawData 6 w) as Hself.
  destruct (readRegisters OUT_X_MSB rawData 6 w) as [buf w1].
  cbn in Hself. cbn. rewrite Hself. reflexivity.
Qed.

(** Closed forms of the read-modify-write methods. *)
Lemma standby_eq (w : World S) :
  standby w =
  (tt, after_write CTRL_REG1
         (Z.land (hd 0 (bus_reply CTRL_REG1 1 w)) (Z.lnot 0x01))
         (after_read CTRL_REG1 w)).
Proof.
  unfold standby, bind. rewrite readRegister_eq. apply writeRegister_eq.
Qed.

Lemma active_eq (w : World S) :
  active w =
  (tt, after_write CTRL_REG1 (Z.lor (hd 0 (bus_reply CTRL_REG1 1 w)) 0x01)
         (after_read CTRL_REG1 w)).
Proof.
  unfold active, bind. rewrite readRegister_eq. apply writeRegister_eq.
Qed.

Lemma setScale_eq fsr (w : World S) :
  setScale fsr w =
  (tt, after_write XYZ_DATA_CFG
         (Z.lor (to_byte (Z.land (hd 0 (bus_reply XYZ_DATA_CFG 1 w)) 0xFC))
                (Z.shiftr (scale_val fsr) 2))
         (after_read XYZ_DATA_CFG w)).
Proof.
  unfold setScale, bind. rewrite readRegister_eq, writeRegister_eq.
  unfold after_write, write_event. now rewrite !to_byte_idem.
Qed.

Lemma setODR_eq odr (w : World S) :
  setODR odr w =
  (tt, after_write CTRL_REG1
         (Z.lor (to_byte (Z.land (hd 0 (bus_reply CTRL_REG1 1 w)) 0xC7))
                (Z.shiftl (odr_val odr) 3))
         (after_read CTRL_REG1 w)).
Proof.
  unfold setODR, bind. rewrite readRegister_eq, writeRegister_eq.
  unfold after_write, write_event. now rewrite !to_byte_idem.
Qed.

Lemma setupPL_eq (w : World S) :
  setupPL w =
  (tt, after_write PL_COUNT 0x50
         (after_write PL_CFG (Z.lor (hd 0 (bus_reply PL_CFG 1 w)) 0x40)
            (after_read PL_CFG w))).
Proof.
  unfold setupPL, bind. rewrite readRegister_eq, writeRegister_eq.
  apply writeRegister_eq.
Qed.

(** One guarded threshold write of [setupTap]. *)
Lemma tap_axis_eq reg ths temp field (w : World S) :
  (if Z.land ths 0x80 =? 0
   then bind (writeRegister reg ths)
             (fun _ => ret (to_byte (Z.lor temp field)))
   else ret temp) w =
  (if Z.land ths 0x80 =? 0 then to_byte (Z.lor temp field) else temp,
   if Z.land ths 0x80 =? 0 then after_write reg ths w else w).
Proof.
  destruct (Z.land ths 0x80 =? 0); [|reflexivity].
  unfold bind. now rewrite writeRegister_eq.
Qed.

Lemma after_write_trace reg data (w : World S) :
  trace (after_write reg data w) =
  trace w ++ [write_event (address (self w)) reg data].
Proof. reflexivity. Qed.

Lemma after_write_self reg data (w : World S) :
  self (after_write reg data w) = self w.
Proof. reflexivity. Qed.

Lemma tap_guard_trace (bit : bool) reg ths (w : World S) :
  trace (if negb bit then after_write reg ths w else w) =
  trace w ++ (if bit then [] else [write_event (address (self w)) reg ths]).
Proof. destruct bit; cbn [negb]; [now rewrite app_nil_r | reflexivity]. Qed.

Lemma tap_guard_self (bit : bool) reg ths (w : World S) :
  self (if negb bit then after_write reg ths w else w) = self w.
Proof. now destruct bit. Qed.

(** [setupTap] writes registers only: the driver object is as before and the
    log grows by the threshold writes of the enabled axes, the pulse
    configuration and the three timing registers. *)
Lemma setupTap_spec xThs yThs zThs (w : World S) :
  is_byte xThs -> is_byte yThs -> is_byte zThs ->
  let a := address (self w) in
  let wr reg ths :=
    if Z.testbit ths 7 then [] else [write_event a reg ths] in
  let en ths field := if Z.testbit ths 7 then 0 else field in
  self (snd (setupTap xThs yThs zThs w)) = self w /\
  trace (snd (setupTap xThs yThs zThs w)) =
    trace w ++ wr PULSE_THSX xThs ++ wr PULSE_THSY yThs
            ++ wr PULSE_THSZ zThs
            ++ [write_event a PULSE_CFG
                  (Z.lor (Z.lor (Z.lor (en xThs 0x3) (en yThs 0xC))
                                (en zThs 0x30)) 0x40);
                write_event a PULSE_TMLT 0x30;
                write_event a PULSE_LTCY 0xA0;
                write_event a PULSE_WIND 0xFF].
Proof.
  intros Hx Hy Hz a wr en. subst a wr en.
  destruct (tap_bits xThs Hx) as [Ex _].
  destruct (tap_bits yThs Hy) as [Ey _].
  destruct (tap_bits zThs Hz) as [Ez _].
  unfold setupTap. cbv zeta.
  rewrite (to_byte_id _ Hx), (to_byte_id _ Hy), (to_byte_id _ Hz).
  rewrite (bind_eq _ _ _ _ _ (tap_axis_eq PULSE_THSX xThs 0 0x3 w)).
  rewrite (bind_eq _ _ _ _ _ (tap_axis_eq PULSE_THSY yThs _ 0xC _)).
  rewrite (bind_eq _ _ _ _ _ (tap_axis_eq PULSE_THSZ zThs _ 0x30 _)).
  rewrite (bind_eq _ _ _ _ _ (writeRegister_eq PULSE_CFG _ _)).
  rewrite (bind_eq _ _ _ _ _ (writeRegister_eq PULSE_TMLT _ _)).
  rewrite (bind_eq _ _ _ _ _ (writeRegister_eq PULSE_LTCY _ _)).
  rewrite writeRegister_eq. rewrite Ex, Ey, Ez. cbn [snd].
  rewrite !after_write_trace, !after_write_self.
  rewrite !tap_guard_trace, !tap_guard_self.
  split; [reflexivity|].
  rewrite <- !app_assoc. do 4 f_equal.
  unfold write_event. do 3 f_equal.
  destruct (Z.testbit xThs 7), (Z.testbit yThs 7), (Z.testbit zThs 7);
    reflexivity.
Qed.

(** [init] in closed form: the identity check decides between returning at
    once and running the configuration sequence, which ends with [active]. *)
Lemma init_eq fsr odr (w : World S) :
  init fsr odr w =
  let w1 := after_read WHO_AM_I (after_begin fsr w) in
  if hd 0 (bus_reply WHO_AM_I 1 w) =? 0x2A
  then (1, snd (active
                  (snd (setupTap 0x80 0x80 0x08
                          (snd (setupPL
                                  (snd (setODR odr
                                          (snd (setScale fsr
                                                  (snd (standby w1))))))))))))
  else (0, w1).
Proof.
  assert (Hbegin : forall B (k : M S B),
            bind (put_scale fsr) (fun _ => bind Wire_begin (fun _ => k)) w
            = k (after_begin fsr w)) by reflexivity.
  unfold init. rewrite Hbegin.
  rewrite (bind_eq _ _ _ _ _ (readRegister_eq WHO_AM_I (after_begin fsr w))).
  change (bus_reply WHO_AM_I 1 (after_begin fsr w))
    with (bus_reply WHO_AM_I 1 w).
  cbv zeta.
  destruct (hd 0 (bus_reply WHO_AM_I 1 w) =? 0x2A); cbn [negb];
    [|reflexivity].
  rewrite (bind_eq _ _ _ _ _ (standby_eq _)).
  rewrite standby_eq. cbn [snd].
  unfold bind at 1. unfold this at 1. cbv beta iota.
  change (scale (self (after_write CTRL_REG1 ?d
                         (after_read WHO_AM_I (after_begin fsr w)))))
    with fsr.
  rewrite (bind_eq _ _ _ _ _ (setScale_eq _ _)).
  rewrite setScale_eq. cbn [snd].
  rewrite (bind_eq _ _ _ _ _ (setODR_eq _ _)).
  rewrite setODR_eq. cbn [snd].
  rewrite (bind_eq _ _ _ _ _ (setupPL_eq _)).
  rewrite setupPL_eq. cbn [snd].
  unfold bind at 1.
  destruct (setupTap 0x80 0x80 0x08 _) as [[] w5]. cbn [snd].
  unfold bind at 1.
  destruct (active w5) as [[] w6]. reflexivity.
Qed.

Lemma bus_reply_length reg len (w : World S) :
  (length (bus_reply reg len w) <= Z.to_nat len)%nat.
Proof.
  unfold bus_reply. rewrite length_map, length_firstn. apply Nat.le_min_l.
Qed.

(** A one-byte request brings back one byte or none. *)
Lemma bus_reply_one reg (w : World S) :
  bus_reply reg 1 w = [] \/ exists b, bus_reply reg 1 w = [b].
Proof.
  pose proof (bus_reply_length reg 1 w) as Hlen.
  destruct (bus_reply reg 1 w) as [|b [|c rest]]; cbn in Hlen;
    [now left | right; now exists b | lia].
Qed.

Lemma identity_reply (w : World S) :
  hd 0 (bus_reply WHO_AM_I 1 w) = 0x2A <-> bus_reply WHO_AM_I 1 w = [0x2A].
Proof.
  destruct (bus_reply_one WHO_AM_I w) as [E | [b E]]; rewrite E; cbn.
  - split; discriminate.
  - split; [now intros -> | now intros [= ->]].
Qed.

(** The two outcomes of [init]. *)
Lemma init_fail fsr odr (w : World S) :
  hd 0 (bus_reply WHO_AM_I 1 w) <> 0x2A ->
  fst (init fsr odr w) = 0 /\
  snd (init fsr odr w) = after_read WHO_AM_I (after_begin fsr w).
Proof.
  intros Hne. apply Z.eqb_neq in Hne. rewrite init_eq. cbv zeta.
  rewrite Hne. split; reflexivity.
Qed.

Lemma init_ok fsr odr (w : World S) :
  hd 0 (bus_reply WHO_AM_I 1 w) = 0x2A ->
  exists wk, fst (init fsr odr w) = 1 /\
             snd (init fsr odr w) = snd (active wk).
Proof.
  intros Heq. apply Z.eqb_eq in Heq. rewrite init_eq. cbv zeta.
  rewrite Heq. eexists. split; reflexivity.
Qed.

Lemma after_identity_read_trace fsr (w : World S) :
  trace (after_read WHO_AM_I (after_begin fsr w)) =
  trace w ++ read_events WHO_AM_I 1 w.
Proof. reflexivity. Qed.

(** None of the configuration methods touches the driver object. *)
Lemma after_read_self reg (w : World S) : self (after_read reg w) = self w.
Proof. reflexivity. Qed.

Lemma standby_self (w : World S) : self (snd (standby w)) = self w.
Proof. rewrite standby_eq. reflexivity. Qed.

Lemma active_self (w : World S) : self (snd (active w)) = self w.
Proof. rewrite active_eq. reflexivity. Qed.

Lemma setScale_self fsr (w : World S) : self (snd (setScale fsr w)) = self w.
Proof. rewrite setScale_eq. reflexivity. Qed.

Lemma setODR_self odr (w : World S) : self (snd (setODR odr w)) = self w.
Proof. rewrite setODR_eq. reflexivity. Qed.

Lemma setupPL_self (w : World S) : self (snd (setupPL w)) = self w.
Proof. rewrite setupPL_eq. reflexivity. Qed.

Lemma setupTap_default_self (w : World S) :
  self (snd (setupTap 0x80 0x80 0x08 w)) = self w.
Proof. apply (setupTap_spec 0x80 0x80 0x08 w); unfold is_byte; lia. Qed.

Lemma active_trace (w : World S) :
  trace (snd (active w)) =
  (trace w ++ read_events CTRL_REG1 1 w)
  ++ [write_event (address (self w)) CTRL_REG1
        (Z.lor (hd 0 (bus_reply CTRL_REG1 1 w)) 0x01)].
Proof. rewrite active_eq. reflexivity. Qed.

(** [init] leaves the driver object as [after_begin] made it. *)
Lemma init_self fsr odr (w : World S) :
  self (snd (init fsr odr w)) = self (after_begin fsr w).
Proof.
  rewrite init_eq. cbv zeta.
  destruct (hd 0 (bus_reply WHO_AM_I 1 w) =? 0x2A); cbn [snd].
  - rewrite active_self, setupTap_default_self, setupPL_self, setODR_self,
      setScale_self, standby_self.
    apply after_read_self.
  - apply after_read_self.
Qed.

(** When [init] succeeds, the last event on the bus is [active]'s write to
    CTRL_REG1, of a byte whose bit 0 is set. *)
Lemma init_success_trace fsr odr (w : World S) :
  bus_reply WHO_AM_I 1 w = [0x2A] ->
  exists pre c,
    trace (snd (init fsr odr w)) =
      pre ++ [write_event (address (self w)) CTRL_REG1 (Z.lor c 0x01)].
Proof.
  intros Hid. rewrite init_eq. cbv zeta.
  rewrite (proj2 (identity_reply w) Hid), Z.eqb_refl. cbn [snd].
  rewrite active_trace.
  rewrite setupTap_default_self, setupPL_self, setODR_self, setScale_self,
    standby_self, after_read_self.
  do 2 eexists. reflexivity.
Qed.

Lemma lor_1_bit0 c : Z.testbit (to_byte (Z.lor c 0x01)) 0 = true.
Proof.
  rewrite to_byte_testbit by lia. rewrite Z.lor_spec. apply orb_true_r.
Qed.

Lemma reply_byte reg (w : World S) b :
  bus_reply reg 1 w = [b] -> is_byte b /\ hd 0 (bus_reply reg 1 w) = b.
Proof.
  intros H. pose proof (bus_reply_bytes reg 1 w) as Hb. rewrite H in *.
  inversion Hb; subst. split; [assumption | reflexivity].
Qed.

(** C1: for every pair of raw bytes the decoding [read] applies, the
    big-endian 16-bit value shifted right arithmetically by 4, lies in
    [-2048, 2047]; (0x7F, 0xF0) decodes to 2047 and (0x80, 0x00) to -2048;
    and [read] stores exactly these decodings of the six bytes received. *)
Theorem sample_decoding_range :
  (forall hi lo, is_byte hi -> is_byte lo ->
     sample12 hi lo = to_short (256 * hi + lo) / 16 /\
     -2048 <= sample12 hi lo <= 2047) /\
  sample12 0x7F 0xF0 = 2047 /\
  sample12 0x80 0x00 = -2048 /\
  (forall (w : World S) rawData b0 b1 b2 b3 b4 b5,
     length rawData = 6%nat ->
     bus_reply OUT_X_MSB 6 w = [b0; b1; b2; b3; b4; b5] ->
     x (self (snd (read rawData w))) = sample12 b0 b1 /\
     y (self (snd (read rawData w))) = sample12 b2 b3 /\
     z (self (snd (read rawData w))) = sample12 b4 b5).
Proof.
  split; [|split; [reflexivity | split; [reflexivity|]]].
  - intros hi lo Hhi Hlo. split; [|apply sample12_range].
    unfold sample12. now rewrite shiftr4_div, big_endian_pair.
  - intros w rawData b0 b1 b2 b3 b4 b5 Hlen Hreply.
    rewrite read_self. cbn [x y z].
    change 6 with (to_byte 6) in Hreply.
    rewrite readRegisters_full, Hreply;
      [repeat split | now rewrite Hreply | rewrite Hreply; exact Hlen].
Qed.

(** C3: a burst read that receives fewer bytes than it asked for (the count
    asked for is the argument narrowed to the [byte len] of the method)
    hands the buffer back exactly as it was, and a single-register read that
    receives no byte returns 0, the value it also returns for a register
    holding 0. *)
Theorem short_read_leaves_buffer :
  (forall (w : World S) reg buffer len,
     Z.of_nat (length (bus_reply reg (to_byte len) w)) < to_byte len ->
     fst (readRegisters reg buffer len w) = buffer) /\
  (forall (w : World S) reg,
     bus_reply reg 1 w = [] -> fst (readRegister reg w) = 0) /\
  (forall (w : World S) reg,
     bus_reply reg 1 w = [0] -> fst (readRegister reg w) = 0).
Proof.
  repeat split.
  - intros w reg buffer len Hshort. apply readRegisters_short. lia.
  - intros w reg H. rewrite readRegister_eq. cbn [fst]. now rewrite H.
  - intros w reg H. rewrite readRegister_eq. cbn [fst]. now rewrite H.
Qed.

(** C6: whatever byte the orientation-status register holds, [readPL]
    returns LOCKOUT when bit 6 is set, whatever the other bits are, and
    otherwise the 2-bit code made of bits 1 and 2, a number from 0 to 3. *)
Theorem readPL_lockout_overrides (w : World S) (b : Z) :
  bus_reply PL_STATUS 1 w = [b] ->
  (Z.testbit b 6 = true -> fst (readPL w) = LOCKOUT) /\
  (Z.testbit b 6 = false ->
     fst (readPL w) = Z.b2z (Z.testbit b 1) + 2 * Z.b2z (Z.testbit b 2) /\
     0 <= fst (readPL w) <= 3).
Proof.
  intros Hreply. destruct (reply_byte _ _ _ Hreply) as [Hb Hhd].
  destruct (pl_bits b Hb) as [Htest Hcode].
  unfold readPL, bind. rewrite readRegister_eq, Hhd, Htest, negb_involutive.
  split; intros Hbit; rewrite Hbit; cbn [fst ret].
  - apply to_byte_id, LOCKOUT_byte.
  - unfold ret. cbn [fst]. rewrite Hcode. split; [reflexivity|].
    destruct (Z.testbit b 1), (Z.testbit b 2); cbn; lia.
Qed.

(** C7: whatever byte the pulse-source register holds, [readTap] returns 0
    when bit 7 is clear and the low 7 bits of the byte otherwise; so 0x00
    gives 0 and 0x83 gives 0x03. *)
Theorem readTap_event_bit (w : World S) (b : Z) :
  bus_reply PULSE_SRC 1 w = [b] ->
  fst (readTap w) = (if Z.testbit b 7 then b mod 128 else 0) /\
  (b = 0x00 -> fst (readTap w) = 0) /\
  (b = 0x83 -> fst (readTap w) = 0x03).
Proof.
  intros Hreply. destruct (reply_byte _ _ _ Hreply) as [Hb Hhd].
  destruct (tap_bits b Hb) as [Htest Hlow].
  assert (Hres : fst (readTap w) = if Z.testbit b 7 then b mod 128 else 0).
  { unfold readTap, bind.
    rewrite readRegister_eq, Hhd, Htest, negb_involutive.
    destruct (Z.testbit b 7); unfold ret; cbn [fst];
      [exact Hlow | reflexivity]. }
  split; [exact Hres|].
  split; intros ->; rewrite Hres; reflexivity.
Qed.

(** C10: [readTap] returns 0 for the pulse-source byte 0x80, an event whose
    source bits are all zero, just as it does for 0x00, no event at all. *)
Theorem readTap_zero_source_ambiguous (w1 w2 : World S) :
  bus_reply PULSE_SRC 1 w1 = [0x80] ->
  bus_reply PULSE_SRC 1 w2 = [0x00] ->
  fst (readTap w1) = 0 /\ fst (readTap w2) = 0 /\
  fst (readTap w1) = fst (readTap w2).
Proof.
  intros H1 H2.
  assert (E1 : fst (readTap w1) = 0).
  { unfold readTap, bind. rewrite readRegister_eq, H1. reflexivity. }
  assert (E2 : fst (readTap w2) = 0).
  { unfold readTap, bind. rewrite readRegister_eq, H2. reflexivity. }
  rewrite E1, E2. repeat split.
Qed.

(** C5: for every triple of threshold bytes, [setupTap] writes an axis's
    threshold register exactly when bit 7 of that axis's byte is clear, and
    then sets that axis's two enable bits; after the three axes it writes the
    enable bits or'ed with 0x40 to PULSE_CFG, then 0x30, 0xA0 and 0xFF to the
    three timing registers.  With (0x80, 0x80, 0x08) nothing is written to
    the x (or y) threshold, 0x08 goes to the z threshold and PULSE_CFG gets
    0x70: z enabled, x and y not. *)
Theorem setupTap_writes (w : World S) (xThs yThs zThs : Z) :
  is_byte xThs -> is_byte yThs -> is_byte zThs ->
  let a := address (self w) in
  let wr reg ths :=
    if Z.testbit ths 7 then [] else [write_event a reg ths] in
  let en ths field := if Z.testbit ths 7 then 0 else field in
  trace (snd (setupTap xThs yThs zThs w)) =
    trace w ++ wr PULSE_THSX xThs ++ wr PULSE_THSY yThs
            ++ wr PULSE_THSZ zThs
            ++ [write_event a PULSE_CFG
                  (Z.lor (Z.lor (Z.lor (en xThs 0x3) (en yThs 0xC))
                                (en zThs 0x30)) 0x40);
                write_event a PULSE_TMLT 0x30;
                write_event a PULSE_LTCY 0xA0;
                write_event a PULSE_WIND 0xFF] /\
  trace (snd (setupTap 0x80 0x80 0x08 w)) =
    trace w ++ [write_event a PULSE_THSZ 0x08;
                write_event a PULSE_CFG 0x70;
                write_event a PULSE_TMLT 0x30;
                write_event a PULSE_LTCY 0xA0;
                write_event a PULSE_WIND 0xFF].
Proof.
  intros Hx Hy Hz. cbv zeta. split.
  - apply (setupTap_spec xThs yThs zThs w Hx Hy Hz).
  - apply (setupTap_spec 0x80 0x80 0x08 w); unfold is_byte; lia.
Qed.

(** C8: the calibrated values [read] stores are exactly raw / 2048 times the
    range in g, raw being the sample decoded from the bytes received for
    that axis and the range being 2, 4 or 8 as the configured scale says;
    with raw = 2048 at 4g the value is exactly 4.0. *)
Theorem calibrated_value_exact :
  (forall (w : World S) rawData b0 b1 b2 b3 b4 b5,
     length rawData = 6%nat ->
     bus_reply OUT_X_MSB 6 w = [b0; b1; b2; b3; b4; b5] ->
     let o := self (snd (read rawData w)) in
     let g := inject_Z (scale_val (scale (self w))) in
     represents (cx o) (inject_Z (sample12 b0 b1) / inject_Z 2048 * g) /\
     represents (cy o) (inject_Z (sample12 b2 b3) / inject_Z 2048 * g) /\
     represents (cz o) (inject_Z (sample12 b4 b5) / inject_Z 2048 * g)) /\
  (forall (w : World S) rawData,
     let o := self (snd (read rawData w)) in
     let g := inject_Z (scale_val (scale (self w))) in
     scale o = scale (self w) /\
     represents (cx o) (inject_Z (x o) / inject_Z 2048 * g) /\
     represents (cy o) (inject_Z (y o) / inject_Z 2048 * g) /\
     represents (cz o) (inject_Z (z o) / inject_Z 2048 * g)) /\
  (forall s, In (scale_val s) [2; 4; 8]) /\
  (forall v s,
     -2048 <= v <= 2048 ->
     represents (calibrate v s)
                (inject_Z v / inject_Z 2048 * inject_Z (scale_val s))) /\
  calibrate 2048 SCALE_4G = float_of_int 4 /\
  represents (calibrate 2048 SCALE_4G) (4 # 1).
Proof.
  assert (Hsample : forall hi lo s,
            represents (calibrate (sample12 hi lo) s)
                       (inject_Z (sample12 hi lo) / inject_Z 2048
                        * inject_Z (scale_val s))).
  { intros hi lo s. apply calibrate_represents.
    pose proof (sample12_range hi lo). lia. }
  split; [|split; [|split; [|split; [|split]]]].
  - intros w rawData b0 b1 b2 b3 b4 b5 Hlen Hreply. cbv zeta.
    rewrite read_self. cbn [cx cy cz].
    change 6 with (to_byte 6) in Hreply.
    rewrite readRegisters_full, Hreply;
      [|now rewrite Hreply | rewrite Hreply; exact Hlen].
    cbn [nth]. repeat split; apply Hsample.
  - intros w rawData. cbv zeta. rewrite read_self. cbn [scale x y z cx cy cz].
    split; [reflexivity|]. repeat split; apply Hsample.
  - intros s. destruct s; cbn; auto.
  - intros v s Hv. now apply calibrate_represents.
  - reflexivity.
  - eexists. split; [reflexivity|]. vm_compute. reflexivity.
Qed.

(** C9: [init] assigns the requested range to [scale] before it reads the
    identity register (a failed [init] ends in the state the identity read
    leaves, and that read starts with [scale] already assigned), so a failed
    [init] still leaves [scale] equal to the requested range: the driver
    object is changed although [init] failed. *)
Theorem init_assigns_scale_first (w : World S) fsr odr :
  scale (self (after_begin fsr w)) = fsr /\
  scale (self (snd (init fsr odr w))) = fsr /\
  (fst (init fsr odr w) = 0 ->
   snd (init fsr odr w) = snd (readRegister WHO_AM_I (after_begin fsr w)) /\
   self (snd (init fsr odr w)) =
     mkMMA8452Q (address (self w)) fsr (x (self w)) (y (self w)) (z (self w))
                (cx (self w)) (cy (self w)) (cz (self w)) /\
   (scale (self w) <> fsr -> self (snd (init fsr odr w)) <> self w)).
Proof.
  split; [reflexivity|]. rewrite init_self. split; [reflexivity|].
  intros Hret. split; [|split; [reflexivity|]].
  - destruct (Z.eq_dec (hd 0 (bus_reply WHO_AM_I 1 w)) 0x2A) as [Heq|Hne].
    + destruct (init_ok fsr odr w Heq) as (wk & Hone & _).
      rewrite Hone in Hret. discriminate.
    + destruct (init_fail fsr odr w Hne) as [_ ->].
      now rewrite readRegister_eq.
  - intros Hne Heq. apply Hne. rewrite <- Heq. reflexivity.
Qed.

End Properties.

Section MockProperties.

Context {hdr : MMA8452Q_h}.

(** On the mock device a register read brings back the addressed register,
    a read leaves the register file alone and a write changes the addressed
    register only. *)
Lemma mock_reply reg (w : World MockDevice) :
  bus_reply reg 1 w = [to_byte (regs (device w) (to_byte (reg_addr reg)))].
Proof.
  unfold bus_reply, select_reg. change (Z.to_nat 1) with 1%nat. cbn.
  now rewrite Z.add_0_r.
Qed.

Lemma mock_after_read reg (w : World MockDevice) :
  regs (device (after_read reg w)) = regs (device w).
Proof. reflexivity. Qed.

Lemma mock_after_write reg data (w : World MockDevice) k :
  regs (device (after_write reg data w)) k =
  if k =? to_byte (reg_addr reg) then to_byte data else regs (device w) k.
Proof. reflexivity. Qed.

(** [init] on any bus, and on the mock device. *)
Lemma init_on_bus {S : Type} {slave : I2CSlave S} (w : World S) fsr odr :
  (fst (init fsr odr w) = 1 <-> bus_reply WHO_AM_I 1 w = [0x2A]) /\
  (bus_reply WHO_AM_I 1 w <> [0x2A] ->
     fst (init fsr odr w) = 0 /\
     trace (snd (init fsr odr w)) = trace w ++ read_events WHO_AM_I 1 w /\
     filter is_register_write (read_events WHO_AM_I 1 w) = []) /\
  (bus_reply WHO_AM_I 1 w = [0x2A] ->
     exists pre c,
       trace (snd (init fsr odr w)) =
         pre ++ [write_event (address (self w)) CTRL_REG1 (Z.lor c 0x01)] /\
       is_register_write
         (write_event (address (self w)) CTRL_REG1 (Z.lor c 0x01)) = true /\
       Z.testbit (to_byte (Z.lor c 0x01)) 0 = true).
Proof.
  destruct (Z.eq_dec (hd 0 (bus_reply WHO_AM_I 1 w)) 0x2A) as [Heq|Hne].
  - pose proof (proj1 (identity_reply w) Heq) as Hid.
    destruct (init_ok fsr odr w Heq) as (wk & Hret & _).
    split; [split; intros _; [exact Hid | exact Hret]|].
    split; [intros Hno; contradiction|].
    intros _.
    destruct (init_success_trace fsr odr w Hid) as (pre & c & E).
    exists pre, c. split; [exact E|]. split; [reflexivity|].
    apply lor_1_bit0.
  - assert (Hno : bus_reply WHO_AM_I 1 w <> [0x2A])
      by (intros Hid; apply Hne, identity_reply, Hid).
    destruct (init_fail fsr odr w Hne) as [Hret Hst]. rewrite Hret, Hst.
    split; [split; [discriminate | intros Hid; contradiction]|].
    split; [|intros Hid; contradiction].
    intros _. split; [reflexivity|].
    split; [apply after_identity_read_trace | reflexivity].
Qed.

Lemma init_on_mock (w : World MockDevice) fsr odr :
  let id := to_byte (regs (device w) (to_byte (reg_addr WHO_AM_I))) in
  let dev := device (snd (init fsr odr w)) in
  (id = 0x2A ->
     fst (init fsr odr w) = 1 /\
     Z.testbit (regs dev (to_byte (reg_addr CTRL_REG1))) 0 = true) /\
  (id <> 0x2A ->
     fst (init fsr odr w) = 0 /\
     forall k, regs dev k = regs (device w) k).
Proof.
  intros id dev. subst id dev.
  pose proof (mock_reply WHO_AM_I w) as Hreply. split.
  - intros Hid. rewrite Hid in Hreply.
    assert (Heq : hd 0 (bus_reply WHO_AM_I 1 w) = 0x2A)
      by now rewrite Hreply.
    destruct (init_ok fsr odr w Heq) as (wk & Hret & Hst).
    rewrite Hret, Hst. split; [reflexivity|].
    rewrite active_eq.
    change (snd (tt, ?v)) with v.
    rewrite mock_after_write, Z.eqb_refl. apply lor_1_bit0.
  - intros Hne.
    assert (Hne' : hd 0 (bus_reply WHO_AM_I 1 w) <> 0x2A)
      by now rewrite Hreply.
    destruct (init_fail fsr odr w Hne') as [Hret Hst]. rewrite Hret, Hst.
    split; [reflexivity|]. intros k. now rewrite mock_after_read.
Qed.

(** C2: [init] returns 1 exactly when the identity register reads 0x2A.
    When it does not, [init] returns 0 and the bus has seen the identity
    read and nothing else, no register write; when it does, the last thing
    on the bus is a write to CTRL_REG1 of a byte with bit 0 set, and a mock
    device ends with bit 0 of its control register set: ACTIVE. *)
Theorem init_identity_check :
  (forall (S : Type) (slave : I2CSlave S) (w : World S) fsr odr,
     (fst (init fsr odr w) = 1 <-> bus_reply WHO_AM_I 1 w = [0x2A]) /\
     (bus_reply WHO_AM_I 1 w <> [0x2A] ->
        fst (init fsr odr w) = 0 /\
        trace (snd (init fsr odr w)) = trace w ++ read_events WHO_AM_I 1 w /\
        filter is_register_write (read_events WHO_AM_I 1 w) = []) /\
     (bus_reply WHO_AM_I 1 w = [0x2A] ->
        exists pre c,
          trace (snd (init fsr odr w)) =
            pre ++ [write_event (address (self w)) CTRL_REG1
                      (Z.lor c 0x01)] /\
          is_register_write
            (write_event (address (self w)) CTRL_REG1 (Z.lor c 0x01))
            = true /\
          Z.testbit (to_byte (Z.lor c 0x01)) 0 = true)) /\
  (forall (w : World MockDevice) fsr odr,
     let id := to_byte (regs (device w) (to_byte (reg_addr WHO_AM_I))) in
     let dev := device (snd (init fsr odr w)) in
     (id = 0x2A ->
        fst (init fsr odr w) = 1 /\
        Z.testbit (regs dev (to_byte (reg_addr CTRL_REG1))) 0 = true) /\
     (id <> 0x2A ->
        fst (init fsr odr w) = 0 /\
        forall k, regs dev k = regs (device w) k)).
Proof.
  split.
  - intros S slave w fsr odr. apply init_on_bus.
  - intros w fsr odr. apply init_on_mock.
Qed.

(** C4: whatever the data-config register holds and whichever range is
    asked for, [setScale] reads the register and writes it back with the two
    low bits replaced by the range code and bits 2 to 7 as they were, no
    other register changes, and this stays so over two calls in a row, as
    with 4g followed by 8g. *)
Theorem setScale_read_modify_write (w : World MockDevice) fsr1 fsr2 :
  let a := to_byte (reg_addr XYZ_DATA_CFG) in
  let code fsr :=
    match fsr with SCALE_2G => 0 | SCALE_4G => 1 | SCALE_8G => 2 end in
  let old := regs (device w) a in
  let w1 := snd (setScale fsr1 w) in
  let w2 := snd (setScale fsr2 w1) in
  regs (device w1) a = Z.lor (Z.land (to_byte old) 0xFC) (code fsr1) /\
  regs (device w1) a mod 4 = code fsr1 /\
  (forall i, 2 <= i < 8 ->
     Z.testbit (regs (device w1) a) i = Z.testbit old i) /\
  (forall k, k <> a -> regs (device w1) k = regs (device w) k) /\
  trace w1 =
    trace w ++ read_events XYZ_DATA_CFG 1 w
            ++ [write_event (address (self w)) XYZ_DATA_CFG
                  (regs (device w1) a)] /\
  regs (device w2) a mod 4 = code fsr2 /\
  (forall i, 2 <= i < 8 ->
     Z.testbit (regs (device w2) a) i = Z.testbit old i).
Proof.
  intros a code old w1 w2.
  assert (Hstep : forall fsr (v : World MockDevice),
    regs (device (snd (setScale fsr v))) a =
    to_byte (Z.lor (to_byte (Z.land (to_byte (regs (device v) a)) 0xFC))
                   (Z.shiftr (scale_val fsr) 2))).
  { intros fsr v. rewrite setScale_eq. cbn [snd].
    rewrite mock_after_write. subst a. rewrite Z.eqb_refl, mock_reply.
    reflexivity. }
  destruct (scale_bits (to_byte old) fsr1 (to_byte_range old))
    as (Hn1 & Hm1 & Hb1).
  assert (Hold1 : forall i, 2 <= i < 8 ->
            Z.testbit (regs (device w1) a) i = Z.testbit old i).
  { intros i Hi. subst w1. rewrite Hstep. fold old.
    rewrite Hb1 by exact Hi. apply to_byte_testbit. lia. }
  split; [subst w1; rewrite Hstep; exact Hn1|].
  split; [subst w1; rewrite Hstep; exact Hm1|].
  split; [exact Hold1|].
  split.
  { intros k Hk. subst w1. rewrite setScale_eq. cbn [snd].
    rewrite mock_after_write. fold a.
    destruct (Z.eqb_spec k a); [contradiction | reflexivity]. }
  split.
  { subst w1. rewrite Hstep. rewrite setScale_eq. cbn [snd].
    unfold after_write at 1. cbn [trace]. unfold after_read at 1 2.
    cbn [trace self]. rewrite <- app_assoc. unfold write_event.
    rewrite mock_reply. cbn [hd]. fold a old. now rewrite !to_byte_idem. }
  destruct (scale_bits (to_byte (regs (device w1) a)) fsr2
              (to_byte_range _)) as (Hn2 & Hm2 & Hb2).
  split; [subst w2; rewrite Hstep; exact Hm2|].
  intros i Hi. subst w2. rewrite Hstep, Hb2 by exact Hi.
  rewrite to_byte_testbit by lia. apply Hold1, Hi.
Qed.

End MockProperties.


(** * The theorems at concrete inputs

    Each theorem is applied to a concrete bus and both sides are evaluated. *)

Lemma sample_decoding_range_witness :
  (sample12 0x12 0x34 = to_short (256 * 0x12 + 0x34) / 16 /\
   -2048 <= sample12 0x12 0x34 <= 2047) /\
  x (self (snd (read (hdr:=datasheet_h) [0; 0; 0; 0; 0; 0]
                     (mock_world (fun k => 16 * k)))))
  = sample12 16 32.
Proof.
  destruct (sample_decoding_range (S:=MockDevice) (hdr:=datasheet_h))
    as (Hpair & _ & _ & Hread).
  split.
  - apply Hpair; bounds.
  - assert (Hreply : bus_reply (hdr:=datasheet_h) OUT_X_MSB 6
                       (mock_world (fun k => 16 * k))
                     = [16; 32; 48; 64; 80; 96])
      by (vm_compute; reflexivity).
    pose proof (Hread (mock_world (fun k => 16 * k)) [0; 0; 0; 0; 0; 0]
                      16 32 48 64 80 96 eq_refl Hreply) as (Hx & _).
    exact Hx.
Defined.

Lemma init_identity_check_witness :
  (fst (init (hdr:=datasheet_h) SCALE_4G ODR_100
             (mock_world (identified_regs 0xF0))) = 1 /\
   Z.testbit
     (regs (device (snd (init (hdr:=datasheet_h) SCALE_4G ODR_100
                              (mock_world (identified_regs 0xF0)))))
           0x2A) 0 = true) /\
  fst (init (hdr:=datasheet_h) SCALE_4G ODR_100 silent_world) = 0.
Proof.
  destruct (init_identity_check (hdr:=datasheet_h)) as [Hgen Hmock].
  split.
  - assert (Hid : to_byte (regs (device (mock_world (identified_regs 0xF0)))
                                (to_byte (reg_addr (MMA8452Q_h:=datasheet_h)
                                                   WHO_AM_I))) = 0x2A)
      by (vm_compute; reflexivity).
    exact (proj1 (Hmock (mock_world (identified_regs 0xF0))
                        SCALE_4G ODR_100) Hid).
  - assert (Hno : bus_reply (hdr:=datasheet_h) WHO_AM_I 1 silent_world
                  <> [0x2A]) by (vm_compute; discriminate).
    exact (proj1 (proj1 (proj2 (Hgen SilentBus silent_slave silent_world
                                     SCALE_4G ODR_100)) Hno)).
Defined.

Lemma short_read_leaves_buffer_witness :
  fst (readRegisters (hdr:=datasheet_h) OUT_X_MSB [1; 2; 3; 4; 5; 6] 6
                     silent_world) = [1; 2; 3; 4; 5; 6] /\
  fst (readRegister (hdr:=datasheet_h) STATUS_MMA8452Q silent_world) = 0 /\
  fst (readRegister (hdr:=datasheet_h) STATUS_MMA8452Q
                    (mock_world (fun _ => 0))) = 0.
Proof.
  destruct (short_read_leaves_buffer (S:=SilentBus) (hdr:=datasheet_h))
    as (Hburst & Hnone & _).
  destruct (short_read_leaves_buffer (S:=MockDevice) (hdr:=datasheet_h))
    as (_ & _ & Hzero).
  split; [|split].
  - apply Hburst. vm_compute. reflexivity.
  - apply Hnone. vm_compute. reflexivity.
  - apply Hzero. vm_compute. reflexivity.
Defined.

Lemma setScale_read_modify_write_witness :
  Z.testbit
    (regs (device (snd (setScale (hdr:=datasheet_h) SCALE_8G
                          (snd (setScale (hdr:=datasheet_h) SCALE_4G
                                  (mock_world (identified_regs 0xFF)))))))
          0x0E) 5
  = Z.testbit 0xFF 5.
Proof.
  pose proof (proj2 (proj2 (proj2 (proj2 (proj2 (proj2
           (setScale_read_modify_write (hdr:=datasheet_h)
              (mock_world (identified_regs 0xFF)) SCALE_4G SCALE_8G)))))) 5
           ltac:(bounds)) as H.
  vm_compute in H. vm_compute. exact H.
Defined.

Lemma setupTap_writes_witness :
  trace (snd (setupTap (hdr:=datasheet_h) 0x10 0x80 0x08 silent_world)) =
  [write_event (hdr:=datasheet_h) 0x1D PULSE_THSX 0x10;
   write_event (hdr:=datasheet_h) 0x1D PULSE_THSZ 0x08;
   write_event (hdr:=datasheet_h) 0x1D PULSE_CFG 0x73;
   write_event (hdr:=datasheet_h) 0x1D PULSE_TMLT 0x30;
   write_event (hdr:=datasheet_h) 0x1D PULSE_LTCY 0xA0;
   write_event (hdr:=datasheet_h) 0x1D PULSE_WIND 0xFF].
Proof.
  pose proof (proj1 (setupTap_writes (hdr:=datasheet_h) silent_world
                       0x10 0x80 0x08
                       ltac:(bounds) ltac:(bounds) ltac:(bounds))) as H.
  vm_compute in H. vm_compute. exact H.
Defined.

Lemma readPL_lockout_overrides_witness :
  fst (readPL (hdr:=datasheet_h) (mock_world (fun _ => 0x44))) = 0x40 /\
  fst (readPL (hdr:=datasheet_h) (mock_world (fun _ => 0x04))) = 2.
Proof.
  assert (H1 : bus_reply (hdr:=datasheet_h) PL_STATUS 1
                 (mock_world (fun _ => 0x44)) = [0x44])
    by (vm_compute; reflexivity).
  assert (H2 : bus_reply (hdr:=datasheet_h) PL_STATUS 1
                 (mock_world (fun _ => 0x04)) = [0x04])
    by (vm_compute; reflexivity).
  split.
  - exact (proj1 (readPL_lockout_overrides _ _ H1) eq_refl).
  - exact (proj1 (proj2 (readPL_lockout_overrides _ _ H2) eq_refl)).
Defined.

Lemma readTap_event_bit_witness :
  fst (readTap (hdr:=datasheet_h) (mock_world (fun _ => 0x83))) = 0x03 /\
  fst (readTap (hdr:=datasheet_h) (mock_world (fun _ => 0x00))) = 0.
Proof.
  assert (H1 : bus_reply (hdr:=datasheet_h) PULSE_SRC 1
                 (mock_world (fun _ => 0x83)) = [0x83])
    by (vm_compute; reflexivity).
  assert (H2 : bus_reply (hdr:=datasheet_h) PULSE_SRC 1
                 (mock_world (fun _ => 0x00)) = [0x00])
    by (vm_compute; reflexivity).
  split.
  - exact (proj2 (proj2 (readTap_event_bit _ _ H1)) eq_refl).
  - exact (proj1 (proj2 (readTap_event_bit _ _ H2)) eq_refl).
Defined.

Lemma calibrated_value_exact_witness :
  represents
    (cx (self (snd (read (hdr:=datasheet_h) [0; 0; 0; 0; 0; 0]
                         (mock_world (fun k => 16 * k))))))
    (inject_Z (sample12 16 32) / inject_Z 2048
     * inject_Z (scale_val (scale (self (mock_world (fun k => 16 * k)))))) /\
  represents (calibrate 2048 SCALE_4G)
             (inject_Z 2048 / inject_Z 2048 * inject_Z (scale_val SCALE_4G)).
Proof.
  destruct (calibrated_value_exact (S:=MockDevice) (hdr:=datasheet_h))
    as (Hbytes & _ & _ & Hrange & _).
  assert (Hreply : bus_reply (hdr:=datasheet_h) OUT_X_MSB 6
                     (mock_world (fun k => 16 * k))
                   = [16; 32; 48; 64; 80; 96])
    by (vm_compute; reflexivity).
  split.
  - exact (proj1 (Hbytes (mock_world (fun k => 16 * k)) [0; 0; 0; 0; 0; 0]
                         16 32 48 64 80 96 eq_refl Hreply)).
  - exact (Hrange 2048 SCALE_4G ltac:(bounds)).
Defined.

Lemma init_assigns_scale_first_witness :
  scale (self silent_world) = SCALE_2G /\
  fst (init (hdr:=datasheet_h) SCALE_8G ODR_800 silent_world) = 0 /\
  scale (self (snd (init (hdr:=datasheet_h) SCALE_8G ODR_800 silent_world)))
  = SCALE_8G /\
  self (snd (init (hdr:=datasheet_h) SCALE_8G ODR_800 silent_world))
  <> self silent_world.
Proof.
  destruct (init_assigns_scale_first (hdr:=datasheet_h) silent_world
              SCALE_8G ODR_800) as (_ & Hscale & Hfail).
  assert (Hret : fst (init (hdr:=datasheet_h) SCALE_8G ODR_800 silent_world)
                 = 0) by (vm_compute; reflexivity).
  split; [reflexivity|]. split; [exact Hret|]. split; [exact Hscale|].
  apply (proj2 (proj2 (Hfail Hret))). discriminate.
Defined.

Lemma readTap_zero_source_ambiguous_witness :
  fst (readTap (hdr:=datasheet_h) (mock_world (fun _ => 0x80))) =
  fst (readTap (hdr:=datasheet_h) (mock_world (fun _ => 0x00))).
Proof.
  assert (H1 : bus_reply (hdr:=datasheet_h) PULSE_SRC 1
                 (mock_world (fun _ => 0x80)) = [0x80])
    by (vm_compute; reflexivity).
  assert (H2 : bus_reply (hdr:=datasheet_h) PULSE_SRC 1
                 (mock_world (fun _ => 0x00)) = [0x00])
    by (vm_compute; reflexivity).
  exact (proj2 (proj2 (readTap_zero_source_ambiguous _ _ H1 H2))).
Defined.

(** * Further properties of the bus protocol *)

Lemma status_bit b :
  is_byte b -> to_byte (Z.shiftr (Z.land b 0x08) 3) = Z.b2z (Z.testbit b 3).
Proof.
  intros Hb. apply Z.eqb_eq.
  apply (byte_forallb
           (fun b => to_byte (Z.shiftr (Z.land b 0x08) 3)
                     =? Z.b2z (Z.testbit b 3))); [|exact Hb].
  vm_compute. reflexivity.
Qed.

(** [nth] over an initial segment of the indices is [firstn]. *)
Lemma map_nth_firstn (l : list Z) : forall n,
  (n <= length l)%nat ->
  map (fun j => nth j l 0) (seq 0 n) = firstn n l.
Proof.
  induction l as [|a l IH]; intros n Hn.
  - destruct n; [reflexivity | cbn in Hn; lia].
  - destruct n as [|n]; [reflexivity|].
    cbn [seq map nth firstn]. f_equal.
    rewrite <- seq_shift, map_map. cbn [nth].
    apply IH. cbn in Hn. lia.
Qed.

Section BusProperties.

Context {S : Type} {slave : I2CSlave S} {hdr : MMA8452Q_h}.

Lemma read_loop_trace n : forall i buf (w : World S),
  trace (snd (for_loop n i
                (fun i buf => bind Wire_read
                                (fun b => ret (list_set i (to_byte b) buf)))
                buf w)) = trace w.
Proof.
  induction n as [|n IH]; intros i buf w; [reflexivity|].
  destruct (read_body_frame i buf w) as (v & w' & E & _ & _ & Ht).
  cbn [for_loop]. rewrite (bind_eq _ _ _ _ _ E), IH. exact Ht.
Qed.

Lemma readRegisters_trace reg buffer len (w : World S) :
  trace (snd (readRegisters reg buffer len w)) =
  trace w ++ read_events reg (to_byte len) w.
Proof.
  unfold readRegisters. cbv zeta. generalize (to_byte len). intros n.
  unfold read_events, bus_reply, select_reg, bind, this,
    Wire_beginTransmission, Wire_write, Wire_endTransmission,
    Wire_requestFrom, Wire_available.
  cbn.
  destruct (slave_send (address (self w)) (Z.to_nat n)
              (slave_recv (address (self w)) [to_byte (reg_addr reg)]
                 false (device w))) as [bytes d].
  cbn.
  match goal with |- context [if ?c then _ else _] => destruct c end;
    [rewrite read_loop_trace|]; cbn; now rewrite <- app_assoc.
Qed.

(** The transmit loop of [writeRegisters] appends the buffer's bytes, in
    order, to Wire's transmit buffer. *)
Lemma write_loop_eq buffer n : forall i (w : World S),
  for_loop n i (fun i _ => Wire_write (nth i buffer 0)) tt w =
  (tt, mkWorld (self w)
               (mkWire (txAddress (Wire w))
                       (txBuffer (Wire w)
                        ++ map (fun j => to_byte (nth j buffer 0)) (seq i n))
                       (rxBuffer (Wire w)))
               (device w) (trace w)).
Proof.
  induction n as [|n IH]; intros i w.
  - cbn. rewrite app_nil_r. now destruct w as [o [a t r] d tr].
  - cbn [for_loop]. unfold bind at 1. unfold Wire_write at 1.
    rewrite IH. cbn. now rewrite <- app_assoc.
Qed.

(** X1: [available] returns bit 3 of the status register, as 0 or 1; it
    returns 0 when the read brings back no byte; and it puts one register
    read on the bus and nothing else. *)
Theorem available_new_data_bit (w : World S) :
  (forall b, bus_reply STATUS_MMA8452Q 1 w = [b] ->
             fst (available w) = Z.b2z (Z.testbit b 3)) /\
  (bus_reply STATUS_MMA8452Q 1 w = [] -> fst (available w) = 0) /\
  (fst (available w) = 0 \/ fst (available w) = 1) /\
  trace (snd (available w)) = trace w ++ read_events STATUS_MMA8452Q 1 w.
Proof.
  assert (Hval : fst (available w) =
                 to_byte (Z.shiftr
                            (Z.land (hd 0 (bus_reply STATUS_MMA8452Q 1 w))
                                    0x08) 3)).
  { unfold available, bind. now rewrite readRegister_eq. }
  assert (Hone : forall b, bus_reply STATUS_MMA8452Q 1 w = [b] ->
                           fst (available w) = Z.b2z (Z.testbit b 3)).
  { intros b Hb. destruct (reply_byte _ _ _ Hb) as [Hbyte Hhd].
    rewrite Hval, Hhd. now apply status_bit. }
  assert (Hnone : bus_reply STATUS_MMA8452Q 1 w = [] -> fst (available w) = 0).
  { intros Hb. rewrite Hval, Hb. reflexivity. }
  split; [exact Hone|]. split; [exact Hnone|]. split.
  - destruct (bus_reply_one STATUS_MMA8452Q w) as [E | [b E]].
    + left. now apply Hnone.
    + rewrite (Hone b E). destruct (Z.testbit b 3); [now right | now left].
  - unfold available, bind. now rewrite readRegister_eq.
Qed.

(** X2: the three polling methods [readTap], [readPL] and [available] never
    write a register and never touch the driver object: each leaves the
    state one register read leaves, whose events hold no register write. *)
Theorem polling_writes_nothing (w : World S) :
  snd (readTap w) = after_read PULSE_SRC w /\
  snd (readPL w) = after_read PL_STATUS w /\
  snd (available w) = after_read STATUS_MMA8452Q w /\
  (forall reg,
     self (after_read reg w) = self w /\
     trace (after_read reg w) = trace w ++ read_events reg 1 w /\
     register_writes (read_events reg 1 w) = []).
Proof.
  split; [|split; [|split]].
  - unfold readTap, bind. rewrite readRegister_eq.
    now destruct (negb _).
  - unfold readPL, bind. rewrite readRegister_eq.
    now destruct (negb _).
  - unfold available, bind. now rewrite readRegister_eq.
  - intros reg. repeat split.
Qed.

(** X3: when the register read of a read-modify-write method brings back no
    byte, the method goes on as if the register held 0 and writes a byte
    holding its own bits only: [active] writes 0x01, [standby] 0x00,
    [setScale] the bare range code and [setODR] the bare rate code. *)
Theorem unanswered_read_is_taken_as_zero (w : World S) fsr odr :
  let a := address (self w) in
  (bus_reply CTRL_REG1 1 w = [] ->
     trace (snd (active w)) =
       trace w ++ read_events CTRL_REG1 1 w
               ++ [write_event a CTRL_REG1 0x01] /\
     trace (snd (standby w)) =
       trace w ++ read_events CTRL_REG1 1 w
               ++ [write_event a CTRL_REG1 0x00] /\
     trace (snd (setODR odr w)) =
       trace w ++ read_events CTRL_REG1 1 w
               ++ [write_event a CTRL_REG1 (8 * odr_val odr)]) /\
  (bus_reply XYZ_DATA_CFG 1 w = [] ->
     trace (snd (setScale fsr w)) =
       trace w ++ read_events XYZ_DATA_CFG 1 w
               ++ [write_event a XYZ_DATA_CFG (scale_val fsr / 4)]).
Proof.
  cbv zeta. split.
  - intros Hno. rewrite active_eq, standby_eq, setODR_eq. cbn [snd].
    rewrite !after_write_trace, !after_read_self, Hno. cbn [hd].
    unfold after_read. cbn [trace]. rewrite <- !app_assoc.
    repeat split; do 2 f_equal. now destruct odr.
  - intros Hno. rewrite setScale_eq. cbn [snd].
    rewrite !after_write_trace, !after_read_self, Hno. cbn [hd].
    unfold after_read. cbn [trace]. rewrite <- !app_assoc.
    do 2 f_equal. now destruct fsr.
Qed.

(** X4: when fewer than six bytes arrive, [read] does not keep the previous
    samples: it decodes whatever the local array [rawData] held before the
    call and stores that, calibrated values included. *)
Theorem read_short_decodes_stale_array (w : World S) rawData :
  Z.of_nat (length (bus_reply OUT_X_MSB 6 w)) < 6 ->
  let o := self (snd (read rawData w)) in
  x o = sample12 (nth 0 rawData 0) (nth 1 rawData 0) /\
  y o = sample12 (nth 2 rawData 0) (nth 3 rawData 0) /\
  z o = sample12 (nth 4 rawData 0) (nth 5 rawData 0) /\
  cx o = calibrate (x o) (scale (self w)) /\
  cy o = calibrate (y o) (scale (self w)) /\
  cz o = calibrate (z o) (scale (self w)).
Proof.
  intros Hshort. cbv zeta. rewrite read_self.
  rewrite readRegisters_short by (change (to_byte 6) with 6; lia).
  repeat split.
Qed.


(** X6: [readRegisters] is one bus transaction whatever comes back: the
    register address sent without a stop, then one request for [len] bytes,
    [len] being the argument narrowed to a byte; the driver object is
    untouched; and when exactly that many bytes arrive the buffer holds
    them, in order. *)
Theorem readRegisters_single_transaction (w : World S) reg buffer len :
  let n := to_byte len in
  trace (snd (readRegisters reg buffer len w)) =
    trace w ++ [EvTransmit (address (self w)) [to_byte (reg_addr reg)] false;
                EvRequest (address (self w)) n (bus_reply reg n w)] /\
  self (snd (readRegisters reg buffer len w)) = self w /\
  (Z.of_nat (length (bus_reply reg n w)) = n ->
   length buffer = Z.to_nat n ->
   fst (readRegisters reg buffer len w) = bus_reply reg n w).
Proof.
  cbv zeta.
  split; [apply readRegisters_trace|]. split; [apply readRegisters_frame|].
  intros Hn Hl. apply readRegisters_full; [exact Hn | lia].
Qed.

Lemma writeRegisters_eq reg buffer len (w : World S) :
  writeRegisters reg buffer len w =
  let a := address (self w) in
  let payload :=
    to_byte (reg_addr reg)
    :: map (fun j => to_byte (nth j buffer 0))
           (seq 0 (Z.to_nat (to_byte len))) in
  (tt, mkWorld (self w) (mkWire a [] (rxBuffer (Wire w)))
               (slave_recv a payload true (device w))
               (trace w ++ [EvTransmit a payload true])).
Proof.
  unfold writeRegisters. cbv zeta.
  rewrite (bind_eq this _ w (self w) w eq_refl).
  rewrite (bind_eq (Wire_beginTransmission _) _ _ tt _ eq_refl).
  rewrite (bind_eq (Wire_write _) _ _ tt _ eq_refl).
  rewrite (bind_eq _ _ _ _ _ (write_loop_eq _ _ _ _)).
  reflexivity.
Qed.

(** X7: [writeRegisters] sends the register address and the first [len]
    bytes of the buffer, [len] being the argument narrowed to a byte, as one
    transmission ended with a stop, and hands exactly that to the device;
    the driver object is untouched. *)
Theorem writeRegisters_one_transmission (w : World S) reg buffer len :
  let n := Z.to_nat (to_byte len) in
  (n <= length buffer)%nat ->
  let a := address (self w) in
  let payload := to_byte (reg_addr reg) :: map to_byte (firstn n buffer) in
  trace (snd (writeRegisters reg buffer len w)) =
    trace w ++ [EvTransmit a payload true] /\
  device (snd (writeRegisters reg buffer len w)) =
    slave_recv a payload true (device w) /\
  self (snd (writeRegisters reg buffer len w)) = self w.
Proof.
  cbv zeta. intros Hlen. rewrite writeRegisters_eq. cbv zeta. cbn [snd].
  cbn [trace device self].
  rewrite <- (map_map (fun j => nth j buffer 0) to_byte).
  rewrite map_nth_firstn by exact Hlen.
  repeat split.
Qed.

End BusProperties.

(** * Further properties of the sample decoding *)

(** The decoding as arithmetic on the two bytes: the high byte counts 16,
    the high nibble of the low byte counts 1, and bit 7 of the high byte is
    the sign. *)
Lemma sample12_formula hi lo :
  is_byte hi -> is_byte lo ->
  sample12 hi lo = 16 * hi + lo / 16 - (if hi <? 128 then 0 else 4096).
Proof.
  intros Hhi Hlo. unfold sample12.
  rewrite shiftr4_div, big_endian_pair by assumption.
  unfold is_byte in *. unfold to_short.
  destruct (Z.ltb_spec hi 128) as [Hpos|Hneg].
  - rewrite (Z.mod_small (256 * hi + lo + 32768)) by lia.
    Z.div_mod_to_equations. lia.
  - replace (256 * hi + lo + 32768)
      with (256 * hi + lo - 32768 + 1 * 65536) by lia.
    rewrite Z_mod_plus_full, Z.mod_small by lia.
    Z.div_mod_to_equations. lia.
Qed.

(** X8: on bytes the sample is negative exactly when bit 7 of the high byte
    is set (high byte at least 0x80), and the low four bits of the low byte
    never matter. *)
Theorem sample12_sign_and_low_nibble hi lo lo' :
  is_byte hi -> is_byte lo -> is_byte lo' ->
  (sample12 hi lo < 0 <-> 128 <= hi) /\
  (lo / 16 = lo' / 16 -> sample12 hi lo = sample12 hi lo') /\
  sample12 hi lo = sample12 hi (16 * (lo / 16)).
Proof.
  intros Hhi Hlo Hlo'.
  assert (Hlo16 : is_byte (16 * (lo / 16)))
    by (unfold is_byte in *; Z.div_mod_to_equations; lia).
  rewrite !sample12_formula by assumption.
  unfold is_byte in *. split; [|split].
  - destruct (Z.ltb_spec hi 128); Z.div_mod_to_equations; lia.
  - intros ->. reflexivity.
  - Z.div_mod_to_equations. lia.
Qed.

(** X9: the decoding is a bijection between the 12 significant bits and the
    range [-2048, 2047]: two byte pairs decode to the same sample only if
    they agree on the high byte and on the high nibble of the low byte, and
    every value of the range is the decoding of some byte pair. *)
Theorem sample12_bijection :
  (forall hi lo hi' lo',
     is_byte hi -> is_byte lo -> is_byte hi' -> is_byte lo' ->
     sample12 hi lo = sample12 hi' lo' ->
     hi = hi' /\ lo / 16 = lo' / 16) /\
  (forall v, -2048 <= v <= 2047 ->
     exists hi lo, is_byte hi /\ is_byte lo /\ sample12 hi lo = v).
Proof.
  split.
  - intros hi lo hi' lo' Hhi Hlo Hhi' Hlo'.
    rewrite !sample12_formula by assumption. unfold is_byte in *.
    destruct (Z.ltb_spec hi 128), (Z.ltb_spec hi' 128);
      Z.div_mod_to_equations; lia.
  - intros v Hv.
    exists ((v mod 4096) / 16), (16 * ((v mod 4096) mod 16)).
    assert (Hhi : is_byte ((v mod 4096) / 16))
      by (unfold is_byte; Z.div_mod_to_equations; lia).
    assert (Hlo : is_byte (16 * ((v mod 4096) mod 16)))
      by (unfold is_byte; Z.div_mod_to_equations; lia).
    split; [exact Hhi|]. split; [exact Hlo|].
    rewrite sample12_formula by assumption.
    destruct (Z.ltb_spec ((v mod 4096) / 16) 128);
      Z.div_mod_to_equations; lia.
Qed.

(** The exact value [v / 2048 * g] of a 12-bit sample lies in [-g, g). *)
Lemma calibrated_bounds v s :
  -2048 <= v <= 2047 ->
  let q := (inject_Z v / inject_Z 2048 * inject_Z (scale_val s))%Q in
  (- inject_Z (scale_val s) <= q)%Q /\ (q < inject_Z (scale_val s))%Q.
Proof.
  intros Hv. cbv zeta.
  unfold Qle, Qlt, Qdiv, Qmult, Qinv, Qopp, inject_Z.
  destruct s; cbn; lia.
Qed.

Section ReadProperties.

Context {S : Type} {slave : I2CSlave S} {hdr : MMA8452Q_h}.

(** X10: whatever arrives on the bus, the calibrated values [read] stores
    are finite and lie in [-g, g), where g is the range in g of the stored
    scale: never an infinity or a NaN, never at or beyond full scale on the
    positive side. *)
Theorem read_calibrated_within_range (w : World S) rawData :
  let o := self (snd (read rawData w)) in
  let g := inject_Z (scale_val (scale (self w))) in
  (exists q, float_value (cx o) = Some q /\ (- g <= q)%Q /\ (q < g)%Q) /\
  (exists q, float_value (cy o) = Some q /\ (- g <= q)%Q /\ (q < g)%Q) /\
  (exists q, float_value (cz o) = Some q /\ (- g <= q)%Q /\ (q < g)%Q).
Proof.
  cbv zeta. rewrite read_self. cbn [cx cy cz].
  assert (H : forall hi lo,
    exists q, float_value (calibrate (sample12 hi lo) (scale (self w)))
              = Some q /\
              (- inject_Z (scale_val (scale (self w))) <= q)%Q /\
              (q < inject_Z (scale_val (scale (self w))))%Q).
  { intros hi lo. pose proof (sample12_range hi lo) as Hr.
    destruct (calibrate_represents (sample12 hi lo) (scale (self w))
                ltac:(lia)) as (q & Hq & Heq).
    destruct (calibrated_bounds (sample12 hi lo) (scale (self w)) Hr)
      as [Hlo Hhi].
    exists q. split; [exact Hq|]. rewrite Heq. split; assumption. }
  repeat split; apply H.
Qed.

End ReadProperties.

(** * Further properties on the mock device *)

Lemma testbit_1_high i : 1 <= i -> Z.testbit 1 i = false.
Proof.
  intros Hi. apply Z.bits_above_log2; [lia|]. change (Z.log2 1) with 0. lia.
Qed.

(** The bytes [standby] and [active] write back, bit by bit. *)
Lemma standby_bits c :
  let n := to_byte (Z.land c (Z.lnot 0x01)) in
  Z.testbit n 0 = false /\
  (forall i, 1 <= i < 8 -> Z.testbit n i = Z.testbit c i).
Proof.
  cbv zeta. split.
  - rewrite to_byte_testbit, Z.land_spec, Z.lnot_spec by lia.
    apply andb_false_r.
  - intros i Hi.
    rewrite to_byte_testbit, Z.land_spec, Z.lnot_spec by lia.
    rewrite testbit_1_high by lia. apply andb_true_r.
Qed.

Lemma active_bits c :
  let n := to_byte (Z.lor c 0x01) in
  Z.testbit n 0 = true /\
  (forall i, 1 <= i < 8 -> Z.testbit n i = Z.testbit c i).
Proof.
  cbv zeta. split.
  - apply lor_1_bit0.
  - intros i Hi. rewrite to_byte_testbit, Z.lor_spec by lia.
    rewrite testbit_1_high by lia. apply orb_false_r.
Qed.

(** The byte [setODR] writes back, for a byte [c] read: bits 3 to 5 are the
    rate code, the other bits are those of [c]. *)
Lemma odr_bits c odr :
  is_byte c ->
  let n := to_byte (Z.lor (to_byte (Z.land c 0xC7))
                          (Z.shiftl (odr_val odr) 3)) in
  (n / 8) mod 8 = odr_val odr /\
  (forall i, 0 <= i < 3 \/ 6 <= i < 8 -> Z.testbit n i = Z.testbit c i).
Proof.
  intros Hc n.
  pose (chk := fun odr c =>
    let n := to_byte (Z.lor (to_byte (Z.land c 0xC7))
                            (Z.shiftl (odr_val odr) 3)) in
    ((n / 8) mod 8 =? odr_val odr)
    && forallb (fun i => Bool.eqb (Z.testbit n i) (Z.testbit c i))
               [0; 1; 2; 6; 7]).
  assert (H : chk odr c = true).
  { apply (byte_forallb (chk odr)); [|exact Hc].
    destruct odr; vm_compute; reflexivity. }
  unfold chk in H. cbv zeta in H. fold n in H.
  apply andb_true_iff in H. destruct H as [Hcode Hbits].
  split; [apply Z.eqb_eq, Hcode|].
  intros i Hi. rewrite forallb_forall in Hbits.
  apply eqb_prop, Hbits. cbn.
  assert (i = 0 \/ i = 1 \/ i = 2 \/ i = 6 \/ i = 7) by lia. intuition.
Qed.

(** The byte [setupPL] writes to PL_CFG: bit 6 set, the rest as read. *)
Lemma pl_enable_bits c :
  let n := to_byte (Z.lor c 0x40) in
  Z.testbit n 6 = true /\
  (forall i, 0 <= i < 8 -> i <> 6 -> Z.testbit n i = Z.testbit c i).
Proof.
  cbv zeta. split.
  - rewrite to_byte_testbit, Z.lor_spec by lia. apply orb_true_r.
  - intros i Hi Hne. rewrite to_byte_testbit, Z.lor_spec by lia.
    replace (Z.testbit 0x40 i) with false; [apply orb_false_r|].
    assert (Hcases : i = 0 \/ i = 1 \/ i = 2 \/ i = 3 \/ i = 4 \/ i = 5
                     \/ i = 7) by lia.
    destruct Hcases as [-> | [-> | [-> | [-> | [-> | [-> | ->]]]]]];
      reflexivity.
Qed.

(** A block write starting at [b] leaves the registers below [b] alone. *)
Lemma store_from_below data : forall b f a,
  a < b -> store_from b data f a = f a.
Proof.
  induction data as [|v data IH]; intros b f a Hb; [reflexivity|].
  cbn [store_from]. rewrite IH by lia.
  destruct (Z.eqb_spec a b); [lia | reflexivity].
Qed.

(** What a register holds after a block write at [a]. *)
Lemma store_from_spec data : forall a f i,
  (i < length data)%nat ->
  store_from a data f (a + Z.of_nat i) = nth i data 0.
Proof.
  induction data as [|v data IH]; intros a f i Hi; [cbn in Hi; lia|].
  cbn [store_from]. destruct i as [|i].
  - cbn [nth]. change (Z.of_nat 0) with 0. rewrite Z.add_0_r.
    rewrite store_from_below by lia. now rewrite Z.eqb_refl.
  - cbn [nth]. replace (a + Z.of_nat (Datatypes.S i))
      with (a + 1 + Z.of_nat i) by lia.
    apply IH. cbn in Hi. lia.
Qed.

(** Toggling the active bit twice, in either order. *)
Lemma toggle_identities c :
  is_byte c ->
  to_byte (Z.lor (to_byte (Z.land c (Z.lnot 0x01))) 0x01)
    = to_byte (Z.lor c 0x01) /\
  to_byte (Z.land (to_byte (Z.lor c 0x01)) (Z.lnot 0x01))
    = to_byte (Z.land c (Z.lnot 0x01)) /\
  to_byte (Z.land (to_byte (Z.land c (Z.lnot 0x01))) (Z.lnot 0x01))
    = to_byte (Z.land c (Z.lnot 0x01)) /\
  to_byte (Z.lor (to_byte (Z.lor c 0x01)) 0x01) = to_byte (Z.lor c 0x01).
Proof.
  intros Hc.
  pose (chk := fun c =>
    (to_byte (Z.lor (to_byte (Z.land c (Z.lnot 0x01))) 0x01)
       =? to_byte (Z.lor c 0x01))
    && (to_byte (Z.land (to_byte (Z.lor c 0x01)) (Z.lnot 0x01))
          =? to_byte (Z.land c (Z.lnot 0x01)))
    && (to_byte (Z.land (to_byte (Z.land c (Z.lnot 0x01))) (Z.lnot 0x01))
          =? to_byte (Z.land c (Z.lnot 0x01)))
    && (to_byte (Z.lor (to_byte (Z.lor c 0x01)) 0x01)
          =? to_byte (Z.lor c 0x01))).
  assert (H : chk c = true)
    by (apply (byte_forallb chk); [vm_compute; reflexivity | exact Hc]).
  unfold chk in H. rewrite !andb_true_iff, !Z.eqb_eq in H. tauto.
Qed.

Section MockBus.

Context {hdr : MMA8452Q_h}.

(** A read-modify-write of [reg] on the mock device: [reg] gets the byte
    computed from its old contents, every other register keeps its own. *)
Lemma mock_rmw reg (f : Z -> Z) (w : World MockDevice) k :
  regs (device (after_write reg (f (hd 0 (bus_reply reg 1 w)))
                            (after_read reg w))) k =
  if k =? to_byte (reg_addr reg)
  then to_byte (f (to_byte (regs (device w) (to_byte (reg_addr reg)))))
  else regs (device w) k.
Proof. rewrite mock_after_write, mock_after_read, mock_reply. reflexivity. Qed.

Lemma mock_standby (w : World MockDevice) k :
  regs (device (snd (standby w))) k =
  if k =? to_byte (reg_addr CTRL_REG1)
  then to_byte (Z.land (to_byte (regs (device w)
                                      (to_byte (reg_addr CTRL_REG1))))
                       (Z.lnot 0x01))
  else regs (device w) k.
Proof.
  rewrite standby_eq. change (snd (tt, ?v)) with v.
  apply (mock_rmw CTRL_REG1 (fun c => Z.land c (Z.lnot 0x01))).
Qed.

Lemma mock_active (w : World MockDevice) k :
  regs (device (snd (active w))) k =
  if k =? to_byte (reg_addr CTRL_REG1)
  then to_byte (Z.lor (to_byte (regs (device w)
                                     (to_byte (reg_addr CTRL_REG1))))
                      0x01)
  else regs (device w) k.
Proof.
  rewrite active_eq. change (snd (tt, ?v)) with v.
  apply (mock_rmw CTRL_REG1 (fun c => Z.lor c 0x01)).
Qed.

Lemma mock_setODR odr (w : World MockDevice) k :
  regs (device (snd (setODR odr w))) k =
  if k =? to_byte (reg_addr CTRL_REG1)
  then to_byte (Z.lor (to_byte (Z.land (to_byte
                                          (regs (device w)
                                             (to_byte (reg_addr CTRL_REG1))))
                                       0xC7))
                      (Z.shiftl (odr_val odr) 3))
  else regs (device w) k.
Proof.
  rewrite setODR_eq. change (snd (tt, ?v)) with v.
  apply (mock_rmw CTRL_REG1
           (fun c => Z.lor (to_byte (Z.land c 0xC7))
                           (Z.shiftl (odr_val odr) 3))).
Qed.

Lemma mock_setScale fsr (w : World MockDevice) k :
  regs (device (snd (setScale fsr w))) k =
  if k =? to_byte (reg_addr XYZ_DATA_CFG)
  then to_byte (Z.lor (to_byte (Z.land (to_byte
                                          (regs (device w)
                                             (to_byte (reg_addr XYZ_DATA_CFG))))
                                       0xFC))
                      (Z.shiftr (scale_val fsr) 2))
  else regs (device w) k.
Proof.
  rewrite setScale_eq. change (snd (tt, ?v)) with v.
  apply (mock_rmw XYZ_DATA_CFG
           (fun c => Z.lor (to_byte (Z.land c 0xFC))
                           (Z.shiftr (scale_val fsr) 2))).
Qed.

(** X11: on the mock device [standby] clears bit 0 of the control register
    and [active] sets it; both keep bits 1 to 7 of that register and leave
    every other register as it was. *)
Theorem mode_bit_only (w : World MockDevice) :
  let a := to_byte (reg_addr CTRL_REG1) in
  let old := regs (device w) in
  let sb := regs (device (snd (standby w))) in
  let ac := regs (device (snd (active w))) in
  Z.testbit (sb a) 0 = false /\
  Z.testbit (ac a) 0 = true /\
  (forall i, 1 <= i < 8 ->
     Z.testbit (sb a) i = Z.testbit (old a) i /\
     Z.testbit (ac a) i = Z.testbit (old a) i) /\
  (forall k, k <> a -> sb k = old k /\ ac k = old k).
Proof.
  intros a old sb ac. subst sb ac.
  destruct (standby_bits (to_byte (old a))) as [Hs0 Hs].
  destruct (active_bits (to_byte (old a))) as [Ha0 Ha].
  split; [rewrite mock_standby; fold a; rewrite Z.eqb_refl; exact Hs0|].
  split; [rewrite mock_active; fold a; rewrite Z.eqb_refl; exact Ha0|].
  split.
  - intros i Hi. rewrite mock_standby, mock_active. fold a.
    rewrite Z.eqb_refl. fold (old a).
    rewrite Hs, Ha by exact Hi. rewrite to_byte_testbit by lia. now split.
  - intros k Hk. rewrite mock_standby, mock_active. fold a.
    destruct (Z.eqb_spec k a); [contradiction | now split].
Qed.

(** X12: on the mock device the mode toggles do not pile up: [standby] then
    [active] leaves the registers [active] alone leaves, [active] then
    [standby] those [standby] alone leaves, and each toggle done twice is
    the toggle done once. *)
Theorem mode_toggles_compose (w : World MockDevice) k :
  regs (device (snd (active (snd (standby w))))) k
    = regs (device (snd (active w))) k /\
  regs (device (snd (standby (snd (active w))))) k
    = regs (device (snd (standby w))) k /\
  regs (device (snd (standby (snd (standby w))))) k
    = regs (device (snd (standby w))) k /\
  regs (device (snd (active (snd (active w))))) k
    = regs (device (snd (active w))) k.
Proof.
  destruct (toggle_identities
              (to_byte (regs (device w) (to_byte (reg_addr CTRL_REG1))))
              (to_byte_range _)) as (H1 & H2 & H3 & H4).
  rewrite !mock_active, !mock_standby, !mock_active, !Z.eqb_refl.
  rewrite !to_byte_idem, H1, H2, H3, H4.
  destruct (k =? to_byte (reg_addr CTRL_REG1)); repeat split.
Qed.

(** X13: on the mock device [setODR] puts the rate code in bits 3 to 5 of
    the control register and keeps bits 0 to 2 (the active bit among them),
    6 and 7 and every other register; after two calls the second rate is
    the one in place. *)
Theorem setODR_read_modify_write (w : World MockDevice) odr1 odr2 :
  let a := to_byte (reg_addr CTRL_REG1) in
  let old := regs (device w) a in
  let w1 := snd (setODR odr1 w) in
  let w2 := snd (setODR odr2 w1) in
  (regs (device w1) a / 8) mod 8 = odr_val odr1 /\
  (forall i, 0 <= i < 3 \/ 6 <= i < 8 ->
     Z.testbit (regs (device w1) a) i = Z.testbit old i) /\
  (forall k, k <> a -> regs (device w1) k = regs (device w) k) /\
  (regs (device w2) a / 8) mod 8 = odr_val odr2 /\
  (forall i, 0 <= i < 3 \/ 6 <= i < 8 ->
     Z.testbit (regs (device w2) a) i = Z.testbit old i).
Proof.
  intros a old w1 w2. subst w1 w2.
  destruct (odr_bits (to_byte old) odr1 (to_byte_range old)) as [Hc1 Hb1].
  assert (Hold1 : forall i, 0 <= i < 3 \/ 6 <= i < 8 ->
            Z.testbit (regs (device (snd (setODR odr1 w))) a) i
            = Z.testbit old i).
  { intros i Hi. rewrite mock_setODR. fold a. rewrite Z.eqb_refl. fold old.
    rewrite Hb1 by exact Hi. apply to_byte_testbit. lia. }
  split; [rewrite mock_setODR; fold a; rewrite Z.eqb_refl; exact Hc1|].
  split; [exact Hold1|].
  split.
  { intros k Hk. rewrite mock_setODR. fold a.
    destruct (Z.eqb_spec k a); [contradiction | reflexivity]. }
  destruct (odr_bits (to_byte (regs (device (snd (setODR odr1 w))) a)) odr2
              (to_byte_range _)) as [Hc2 Hb2].
  split.
  { rewrite (mock_setODR odr2). fold a. rewrite Z.eqb_refl. exact Hc2. }
  intros i Hi. rewrite (mock_setODR odr2). fold a. rewrite Z.eqb_refl.
  rewrite Hb2 by exact Hi. rewrite to_byte_testbit by lia.
  apply Hold1, Hi.
Qed.

End MockBus.

Section MockRoundTrips.

Context {hdr : MMA8452Q_h}.

Lemma mock_setupPL (w : World MockDevice) k :
  regs (device (snd (setupPL w))) k =
  if k =? to_byte (reg_addr PL_COUNT) then 0x50
  else if k =? to_byte (reg_addr PL_CFG)
       then to_byte (Z.lor (to_byte (regs (device w)
                                          (to_byte (reg_addr PL_CFG))))
                           0x40)
       else regs (device w) k.
Proof.
  rewrite setupPL_eq. change (snd (tt, ?v)) with v.
  rewrite mock_after_write.
  rewrite (mock_rmw PL_CFG (fun c => Z.lor c 0x40)). reflexivity.
Qed.

(** X14: [setupPL] reads PL_CFG, writes it back with bit 6 set, then writes
    0x50 to PL_COUNT, and nothing else.  On the mock device PL_COUNT ends
    as 0x50, PL_CFG (when it is another register) has bit 6 set and its
    other bits as before, and no other register changes. *)
Theorem setupPL_enables_detection :
  (forall (S : Type) (slave : I2CSlave S) (w : World S),
     trace (snd (setupPL w)) =
       trace w ++ read_events PL_CFG 1 w
               ++ [write_event (address (self w)) PL_CFG
                     (Z.lor (hd 0 (bus_reply PL_CFG 1 w)) 0x40);
                   write_event (address (self w)) PL_COUNT 0x50] /\
     self (snd (setupPL w)) = self w) /\
  (forall (w : World MockDevice),
     let cfg := to_byte (reg_addr PL_CFG) in
     let cnt := to_byte (reg_addr PL_COUNT) in
     let new := regs (device (snd (setupPL w))) in
     new cnt = 0x50 /\
     (cfg <> cnt ->
        Z.testbit (new cfg) 6 = true /\
        forall i, 0 <= i < 8 -> i <> 6 ->
                  Z.testbit (new cfg) i = Z.testbit (regs (device w) cfg) i) /\
     (forall k, k <> cfg -> k <> cnt -> new k = regs (device w) k)).
Proof.
  split.
  - intros S slave w. rewrite setupPL_eq. change (snd (tt, ?v)) with v.
    rewrite !after_write_trace, !after_write_self, !after_read_self.
    unfold after_read. cbn [trace]. rewrite <- !app_assoc.
    split; reflexivity.
  - intros w cfg cnt new. subst new.
    destruct (pl_enable_bits (to_byte (regs (device w) cfg))) as [H6 Hrest].
    split; [rewrite mock_setupPL; fold cnt; now rewrite Z.eqb_refl|].
    split.
    + intros Hne. rewrite mock_setupPL. fold cnt cfg.
      destruct (Z.eqb_spec cfg cnt) as [E|_]; [contradiction|].
      rewrite Z.eqb_refl. split; [exact H6|].
      intros i Hi Hi6. rewrite Hrest by assumption.
      apply to_byte_testbit, Hi.
    + intros k Hk1 Hk2. rewrite mock_setupPL. fold cnt cfg.
      destruct (Z.eqb_spec k cnt); [contradiction|].
      destruct (Z.eqb_spec k cfg); [contradiction | reflexivity].
Qed.

(** X15: on the mock device a register read after a register write brings
    back the byte written, and a write to one register does not change what
    a read of a register at another address brings back. *)
Theorem write_then_read_register (w : World MockDevice) reg reg' v :
  fst (readRegister reg (snd (writeRegister reg v w))) = to_byte v /\
  (to_byte (reg_addr reg') <> to_byte (reg_addr reg) ->
   fst (readRegister reg' (snd (writeRegister reg v w)))
   = fst (readRegister reg' w)).
Proof.
  rewrite writeRegister_eq. change (snd (tt, ?u)) with u.
  rewrite !readRegister_eq. cbn [fst]. rewrite !mock_reply. cbn [hd].
  rewrite !mock_after_write, Z.eqb_refl, to_byte_idem.
  split; [reflexivity|].
  intros Hne. destruct (Z.eqb_spec (to_byte (reg_addr reg'))
                                   (to_byte (reg_addr reg)));
    [contradiction | reflexivity].
Qed.

(** What the mock device sends back for a burst read. *)
Lemma mock_burst_reply reg len (w : World MockDevice) :
  bus_reply reg len w =
  map (fun i => to_byte (regs (device w)
                              (to_byte (reg_addr reg) + Z.of_nat i)))
      (seq 0 (Z.to_nat len)).
Proof.
  unfold bus_reply, select_reg. cbn.
  rewrite firstn_all2 by (rewrite length_map, length_seq; lia).
  now rewrite map_map.
Qed.

(** X16: on the mock device a block written by [writeRegisters] is what a
    [readRegisters] of the same length at the same register brings back:
    the bytes of the buffer, in order.  The length is the argument narrowed
    to a byte, so the block has at most 255 bytes. *)
Theorem burst_write_then_read (w : World MockDevice) reg data buffer len :
  length data = Z.to_nat (to_byte len) ->
  length buffer = Z.to_nat (to_byte len) ->
  fst (readRegisters reg buffer len (snd (writeRegisters reg data len w)))
  = map to_byte data.
Proof.
  intros Hdata Hbuf.
  pose proof (to_byte_range len) as Hlen. unfold is_byte in Hlen.
  assert (Hreply : bus_reply reg (to_byte len)
                     (snd (writeRegisters reg data len w))
                   = map to_byte data).
  { assert (Hsent : map (fun j => to_byte (nth j data 0))
                        (seq 0 (Z.to_nat (to_byte len))) = map to_byte data).
    { rewrite <- (map_map (fun j => nth j data 0) to_byte).
      rewrite map_nth_firstn, <- Hdata, firstn_all by lia. reflexivity. }
    rewrite mock_burst_reply, writeRegisters_eq. cbv zeta.
    change (snd (tt, ?u)) with u. cbn [device slave_recv mock_slave regs].
    rewrite Hsent.
    transitivity (map to_byte
                      (map (fun i => nth i (map to_byte data) 0)
                           (seq 0 (Z.to_nat (to_byte len))))).
    - rewrite map_map. apply map_ext_in. intros i Hi. apply in_seq in Hi.
      rewrite store_from_spec by (rewrite length_map; lia). reflexivity.
    - rewrite map_nth_firstn by (rewrite length_map; lia).
      rewrite firstn_all2 by (rewrite length_map; lia).
      rewrite map_map. apply map_ext. intros u. apply to_byte_idem. }
  rewrite <- Hreply. apply readRegisters_full.
  - rewrite Hreply, length_map. lia.
  - rewrite Hreply, length_map. lia.
Qed.

End MockRoundTrips.

(** * The bus traffic of [init] *)

Lemma register_writes_app evs1 evs2 :
  register_writes (evs1 ++ evs2) = register_writes evs1 ++ register_writes evs2.
Proof.
  induction evs1 as [|ev evs1 IH]; [reflexivity|].
  destruct ev as [a [|r [|d payload]] stop | a q got]; cbn;
    now rewrite IH.
Qed.

Section InitTraffic.

Context {S : Type} {slave : I2CSlave S} {hdr : MMA8452Q_h}.

Lemma emits_trans (w w1 w2 : World S) l1 l2 :
  emits w w1 l1 -> emits w1 w2 l2 -> emits w w2 (l1 ++ l2).
Proof.
  intros (Ha1 & evs1 & Ht1 & Hw1 & Hf1) (Ha2 & evs2 & Ht2 & Hw2 & Hf2).
  split; [congruence|]. exists (evs1 ++ evs2).
  split; [rewrite Ht2, Ht1; now rewrite app_assoc|].
  split; [rewrite register_writes_app, map_app; congruence|].
  apply Forall_app. split; [exact Hf1|]. now rewrite <- Ha1.
Qed.

Lemma emits_after_read reg (w : World S) : emits w (after_read reg w) [].
Proof.
  split; [reflexivity|]. exists (read_events reg 1 w).
  repeat split. repeat constructor.
Qed.

Lemma emits_after_write reg data (w : World S) :
  emits w (after_write reg data w) [to_byte (reg_addr reg)].
Proof.
  split; [reflexivity|].
  exists [write_event (address (self w)) reg data].
  repeat split. repeat constructor.
Qed.

Lemma emits_rmw reg data (w : World S) :
  emits w (after_write reg data (after_read reg w)) [to_byte (reg_addr reg)].
Proof.
  apply (emits_trans w (after_read reg w) _ [] [to_byte (reg_addr reg)]);
    [apply emits_after_read | apply emits_after_write].
Qed.

Lemma emits_setupTap_default (w : World S) :
  emits w (snd (setupTap 0x80 0x80 0x08 w))
        (map (fun r => to_byte (reg_addr r))
             [PULSE_THSZ; PULSE_CFG; PULSE_TMLT; PULSE_LTCY; PULSE_WIND]).
Proof.
  destruct (setupTap_spec 0x80 0x80 0x08 w
              ltac:(bounds) ltac:(bounds) ltac:(bounds)) as [Hs Ht].
  split; [now rewrite Hs|]. eexists. split; [exact Ht|].
  split; [reflexivity|]. repeat constructor.
Qed.

Lemma emits_setScale fsr (w : World S) :
  emits w (snd (setScale fsr w)) [to_byte (reg_addr XYZ_DATA_CFG)].
Proof. rewrite setScale_eq. apply emits_rmw. Qed.

Lemma emits_setODR odr (w : World S) :
  emits w (snd (setODR odr w)) [to_byte (reg_addr CTRL_REG1)].
Proof. rewrite setODR_eq. apply emits_rmw. Qed.

Lemma emits_active (w : World S) :
  emits w (snd (active w)) [to_byte (reg_addr CTRL_REG1)].
Proof. rewrite active_eq. apply emits_rmw. Qed.

Lemma emits_setupPL (w : World S) :
  emits w (snd (setupPL w))
        ([to_byte (reg_addr PL_CFG)] ++ [to_byte (reg_addr PL_COUNT)]).
Proof.
  rewrite setupPL_eq. change (snd (tt, ?v)) with v.
  eapply emits_trans; [apply emits_rmw | apply emits_after_write].
Qed.

(** The configuration sequence of [init], from the state [standby] leaves
    to the end. *)
Lemma emits_configure fsr odr (w : World S) :
  emits w
    (snd (active (snd (setupTap 0x80 0x80 0x08
                         (snd (setupPL (snd (setODR odr
                                               (snd (setScale fsr w))))))))))
    (map (fun r => to_byte (reg_addr r))
         [XYZ_DATA_CFG; CTRL_REG1; PL_CFG; PL_COUNT;
          PULSE_THSZ; PULSE_CFG; PULSE_TMLT; PULSE_LTCY; PULSE_WIND;
          CTRL_REG1]).
Proof.
  change (map (fun r => to_byte (reg_addr r))
            [XYZ_DATA_CFG; CTRL_REG1; PL_CFG; PL_COUNT; PULSE_THSZ;
             PULSE_CFG; PULSE_TMLT; PULSE_LTCY; PULSE_WIND; CTRL_REG1])
    with ([to_byte (reg_addr XYZ_DATA_CFG)]
          ++ [to_byte (reg_addr CTRL_REG1)]
          ++ ([to_byte (reg_addr PL_CFG)] ++ [to_byte (reg_addr PL_COUNT)])
          ++ map (fun r => to_byte (reg_addr r))
                 [PULSE_THSZ; PULSE_CFG; PULSE_TMLT; PULSE_LTCY; PULSE_WIND]
          ++ [to_byte (reg_addr CTRL_REG1)]).
  eapply emits_trans; [apply emits_setScale|].
  eapply emits_trans; [apply emits_setODR|].
  eapply emits_trans; [apply emits_setupPL|].
  eapply emits_trans; [apply emits_setupTap_default|].
  apply emits_active.
Qed.

(** X17: everything [init] puts on the bus is addressed to the driver's own
    device.  When the identity check fails there is no register write.
    When it passes, the register writes go, in this order, to CTRL_REG1,
    XYZ_DATA_CFG, CTRL_REG1, PL_CFG, PL_COUNT, PULSE_THSZ, PULSE_CFG,
    PULSE_TMLT, PULSE_LTCY, PULSE_WIND and CTRL_REG1, and the first of them
    writes a byte with bit 0 clear: standby comes before any
    configuration. *)
Theorem init_bus_traffic (w : World S) fsr odr :
  exists evs,
    trace (snd (init fsr odr w)) = trace w ++ evs /\
    Forall (fun ev => event_addr ev = address (self w)) evs /\
    (bus_reply WHO_AM_I 1 w <> [0x2A] -> register_writes evs = []) /\
    (bus_reply WHO_AM_I 1 w = [0x2A] ->
       map fst (register_writes evs) =
         map (fun r => to_byte (reg_addr r))
             [CTRL_REG1; XYZ_DATA_CFG; CTRL_REG1; PL_CFG; PL_COUNT;
              PULSE_THSZ; PULSE_CFG; PULSE_TMLT; PULSE_LTCY; PULSE_WIND;
              CTRL_REG1] /\
       exists d rest,
         register_writes evs = (to_byte (reg_addr CTRL_REG1), d) :: rest /\
         Z.testbit d 0 = false).
Proof.
  destruct (Z.eq_dec (hd 0 (bus_reply WHO_AM_I 1 w)) 0x2A) as [Heq|Hne].
  - pose proof (proj1 (identity_reply w) Heq) as Hid.
    pose (w1 := after_read WHO_AM_I (after_begin fsr w)).
    pose (c := hd 0 (bus_reply CTRL_REG1 1 w1)).
    pose (w2 := after_write CTRL_REG1 (Z.land c (Z.lnot 0x01))
                            (after_read CTRL_REG1 w1)).
    assert (Hfinal : snd (init fsr odr w) =
      snd (active (snd (setupTap 0x80 0x80 0x08
                          (snd (setupPL (snd (setODR odr
                                                (snd (setScale fsr w2)))))))))).
    { rewrite init_eq. cbv zeta. apply Z.eqb_eq in Heq. rewrite Heq.
      rewrite standby_eq. reflexivity. }
    destruct (emits_configure fsr odr w2) as (_ & evs2 & Ht2 & Hw2 & Hf2).
    exists ((read_events WHO_AM_I 1 w ++ read_events CTRL_REG1 1 w1
             ++ [write_event (address (self w)) CTRL_REG1
                   (Z.land c (Z.lnot 0x01))]) ++ evs2).
    split.
    { rewrite Hfinal, Ht2. unfold w2. rewrite after_write_trace.
      change (trace (after_read CTRL_REG1 w1))
        with (trace w1 ++ read_events CTRL_REG1 1 w1).
      unfold w1 at 1. rewrite after_identity_read_trace.
      rewrite <- !app_assoc. reflexivity. }
    split; [apply Forall_app; split; [repeat constructor | exact Hf2]|].
    split; [intros Hno; contradiction|].
    intros _. rewrite register_writes_app. split.
    + rewrite map_app, Hw2. reflexivity.
    + eexists _, _. split; [reflexivity|].
      apply (standby_bits c).
  - assert (Hno : bus_reply WHO_AM_I 1 w <> [0x2A])
      by (intros Hid; apply Hne, identity_reply, Hid).
    destruct (init_fail fsr odr w Hne) as [_ Hst].
    exists (read_events WHO_AM_I 1 w).
    split; [rewrite Hst; reflexivity|].
    split; [repeat constructor|].
    split; [reflexivity | intros Hid; contradiction].
Qed.

End InitTraffic.

(** * What a successful [init] leaves in the mock device *)

Section InitState.

Context {S : Type} {slave : I2CSlave S} {hdr : MMA8452Q_h}.

Lemma init_ok_state fsr odr (w : World S) :
  hd 0 (bus_reply WHO_AM_I 1 w) = 0x2A ->
  let w1 := snd (standby (after_read WHO_AM_I (after_begin fsr w))) in
  let w2 := snd (setODR odr (snd (setScale fsr w1))) in
  snd (init fsr odr w) =
  snd (active (snd (setupTap 0x80 0x80 0x08 (snd (setupPL w2))))).
Proof.
  intros Heq. apply Z.eqb_eq in Heq. cbv zeta. rewrite init_eq. cbv zeta.
  rewrite Heq. reflexivity.
Qed.

(** The default tap set-up of [init]: x and y disabled, so five writes. *)
Lemma setupTap_default_eq (w : World S) :
  snd (setupTap 0x80 0x80 0x08 w) =
  after_write PULSE_WIND 0xFF
    (after_write PULSE_LTCY 0xA0
       (after_write PULSE_TMLT 0x30
          (after_write PULSE_CFG 0x70
             (after_write PULSE_THSZ 0x08 w)))).
Proof.
  unfold setupTap. cbv zeta.
  rewrite (bind_eq _ _ _ _ _ (tap_axis_eq PULSE_THSX _ 0 0x3 w)).
  rewrite (bind_eq _ _ _ _ _ (tap_axis_eq PULSE_THSY _ _ 0xC _)).
  rewrite (bind_eq _ _ _ _ _ (tap_axis_eq PULSE_THSZ _ _ 0x30 _)).
  rewrite (bind_eq _ _ _ _ _ (writeRegister_eq PULSE_CFG _ _)).
  rewrite (bind_eq _ _ _ _ _ (writeRegister_eq PULSE_TMLT _ _)).
  rewrite (bind_eq _ _ _ _ _ (writeRegister_eq PULSE_LTCY _ _)).
  rewrite writeRegister_eq.
  change (Z.land (to_byte 0x80) 0x80 =? 0) with false.
  change (Z.land (to_byte 0x08) 0x80 =? 0) with true.
  cbv iota. reflexivity.
Qed.

End InitState.

(** The byte a successful [init] leaves in the control register, from the
    byte [c] it held: active, rate code in bits 3 to 5, bits 1, 2, 6 and 7
    as before. *)
Lemma init_ctrl_bits c odr :
  is_byte c ->
  let n := to_byte
             (Z.lor (to_byte
                       (Z.lor (to_byte
                                 (Z.land (to_byte (Z.land c (Z.lnot 0x01)))
                                         0xC7))
                              (Z.shiftl (odr_val odr) 3)))
                    0x01) in
  Z.testbit n 0 = true /\
  (n / 8) mod 8 = odr_val odr /\
  (forall i, i = 1 \/ i = 2 \/ i = 6 \/ i = 7 ->
             Z.testbit n i = Z.testbit c i).
Proof.
  intros Hc n.
  pose (chk := fun odr c =>
    let n := to_byte
               (Z.lor (to_byte
                         (Z.lor (to_byte
                                   (Z.land (to_byte (Z.land c (Z.lnot 0x01)))
                                           0xC7))
                                (Z.shiftl (odr_val odr) 3)))
                      0x01) in
    Z.testbit n 0 && ((n / 8) mod 8 =? odr_val odr)
    && forallb (fun i => Bool.eqb (Z.testbit n i) (Z.testbit c i))
               [1; 2; 6; 7]).
  assert (H : chk odr c = true).
  { apply (byte_forallb (chk odr)); [|exact Hc].
    destruct odr; vm_compute; reflexivity. }
  unfold chk in H. cbv zeta in H. fold n in H.
  apply andb_true_iff in H. destruct H as [H Hbits].
  apply andb_true_iff in H. destruct H as [H0 Hcode].
  split; [exact H0|]. split; [apply Z.eqb_eq, Hcode|].
  intros i Hi. rewrite forallb_forall in Hbits.
  apply eqb_prop, Hbits. cbn. intuition.
Qed.

Section InitOnMock.

Context {hdr : MMA8452Q_h}.

Hypothesis addr_inj :
  forall r1 r2, to_byte (reg_addr r1) = to_byte (reg_addr r2) -> r1 = r2.

Lemma addr_eqb r1 r2 :
  r1 <> r2 -> (to_byte (reg_addr r1) =? to_byte (reg_addr r2)) = false.
Proof. intros Hne. apply Z.eqb_neq. intros E. apply Hne, addr_inj, E. Qed.

(** The register file after a successful [init], as the eleven writes made
    it; comparisons between addresses of distinct registers are decided by
    [addr_inj]. *)
Ltac init_regs Hid :=
  rewrite (init_ok_state _ _ _ Hid); cbv zeta;
  rewrite ?mock_active, ?setupTap_default_eq, ?mock_after_write,
    ?mock_setupPL, ?mock_setODR, ?mock_setScale, ?mock_standby,
    ?mock_after_read;
  change (regs (device (after_begin ?f ?v))) with (regs (device v));
  repeat match goal with
         | |- context [to_byte (reg_addr ?a) =? to_byte (reg_addr ?a)] =>
             rewrite (Z.eqb_refl (to_byte (reg_addr a)))
         | |- context [to_byte (reg_addr ?a) =? to_byte (reg_addr ?b)] =>
             rewrite (addr_eqb a b) by discriminate
         end.

(** X18: on a mock device whose registers have distinct addresses and whose
    identity register reads 0x2A, [init] leaves the control register active
    (bit 0 set) with the requested rate code in bits 3 to 5 and its bits 1,
    2, 6 and 7 as before; the data-config register with the requested range
    code in bits 0 and 1 and bits 2 to 7 as before; PL_CFG with bit 6 set;
    PL_COUNT 0x50; the z threshold 0x08, PULSE_CFG 0x70 and the timing
    registers 0x30, 0xA0, 0xFF; and the x and y thresholds and the identity
    register untouched. *)
Theorem init_configures_mock (w : World MockDevice) fsr odr :
  to_byte (regs (device w) (to_byte (reg_addr WHO_AM_I))) = 0x2A ->
  let adr r := to_byte (reg_addr r) in
  let old := regs (device w) in
  let new := regs (device (snd (init fsr odr w))) in
  fst (init fsr odr w) = 1 /\
  (Z.testbit (new (adr CTRL_REG1)) 0 = true /\
   (new (adr CTRL_REG1) / 8) mod 8 = odr_val odr /\
   (forall i, i = 1 \/ i = 2 \/ i = 6 \/ i = 7 ->
      Z.testbit (new (adr CTRL_REG1)) i
      = Z.testbit (old (adr CTRL_REG1)) i)) /\
  (new (adr XYZ_DATA_CFG) mod 4
     = match fsr with SCALE_2G => 0 | SCALE_4G => 1 | SCALE_8G => 2 end /\
   (forall i, 2 <= i < 8 ->
      Z.testbit (new (adr XYZ_DATA_CFG)) i
      = Z.testbit (old (adr XYZ_DATA_CFG)) i)) /\
  Z.testbit (new (adr PL_CFG)) 6 = true /\
  new (adr PL_COUNT) = 0x50 /\
  new (adr PULSE_THSZ) = 0x08 /\
  new (adr PULSE_CFG) = 0x70 /\
  new (adr PULSE_TMLT) = 0x30 /\
  new (adr PULSE_LTCY) = 0xA0 /\
  new (adr PULSE_WIND) = 0xFF /\
  new (adr PULSE_THSX) = old (adr PULSE_THSX) /\
  new (adr PULSE_THSY) = old (adr PULSE_THSY) /\
  new (adr WHO_AM_I) = old (adr WHO_AM_I).
Proof.
  intros Hid adr old new. subst adr old new. cbv beta.
  assert (Heq : hd 0 (bus_reply WHO_AM_I 1 w) = 0x2A)
    by (rewrite mock_reply; exact Hid).
  split.
  { destruct (init_ok fsr odr w Heq) as (wk & Hret & _). exact Hret. }
  split.
  { init_regs Heq. rewrite !to_byte_idem.
    destruct (init_ctrl_bits
                (to_byte (regs (device w) (to_byte (reg_addr CTRL_REG1))))
                odr (to_byte_range _)) as (H0 & Hcode & Hbits).
    split; [exact H0|]. split; [exact Hcode|].
    intros i Hi. rewrite Hbits by exact Hi. apply to_byte_testbit. lia. }
  split.
  { init_regs Heq.
    destruct (scale_bits
                (to_byte (regs (device w) (to_byte (reg_addr XYZ_DATA_CFG))))
                fsr (to_byte_range _)) as (_ & Hmod & Hbits).
    split; [exact Hmod|].
    intros i Hi. rewrite Hbits by exact Hi. apply to_byte_testbit. lia. }
  split.
  { init_regs Heq. apply pl_enable_bits. }
  repeat split; init_regs Heq; reflexivity.
Qed.

End InitOnMock.

(** * Results and traffic of the reading methods *)

Lemma list_set_bytes i v : forall l,
  is_byte v -> Forall is_byte l -> Forall is_byte (list_set i v l).
Proof.
  induction i as [|i IH]; intros l Hv Hl; destruct l as [|h t]; cbn;
    try constructor; inversion Hl; subst; auto.
Qed.

Section ReadingMethods.

Context {S : Type} {slave : I2CSlave S} {hdr : MMA8452Q_h}.

Lemma read_loop_bytes n : forall i buf (w : World S),
  Forall is_byte buf ->
  Forall is_byte
    (fst (for_loop n i
            (fun i buf => bind Wire_read
                            (fun b => ret (list_set i (to_byte b) buf)))
            buf w)).
Proof.
  induction n as [|n IH]; intros i buf w Hbuf; [exact Hbuf|].
  cbn [for_loop]. unfold bind at 1.
  destruct (bind Wire_read (fun b => ret (list_set i (to_byte b) buf)) w)
    as [v w'] eqn:E.
  apply IH. revert E. unfold bind, Wire_read, ret.
  destruct (rxBuffer (Wire w)); intros [= <- _];
    apply list_set_bytes; auto using to_byte_range.
Qed.

Lemma read_trace rawData (w : World S) :
  trace (snd (read rawData w)) =
  trace (snd (readRegisters OUT_X_MSB rawData 6 w)).
Proof.
  unfold read, bind at 1.
  destruct (readRegisters OUT_X_MSB rawData 6 w) as [buf w1]. reflexivity.
Qed.

(** X19: [readTap] always returns a value from 0 to 127 and [readPL] always
    returns LOCKOUT or a code from 0 to 3, whatever the bus brings back;
    when the status read brings back no byte, [readTap] reports no tap (0)
    and [readPL] reports orientation code 0. *)
Theorem polling_results_bounded (w : World S) :
  0 <= fst (readTap w) <= 127 /\
  (fst (readPL w) = LOCKOUT \/ 0 <= fst (readPL w) <= 3) /\
  (bus_reply PULSE_SRC 1 w = [] -> fst (readTap w) = 0) /\
  (bus_reply PL_STATUS 1 w = [] -> fst (readPL w) = 0).
Proof.
  assert (Htap0 : bus_reply PULSE_SRC 1 w = [] -> fst (readTap w) = 0).
  { intros E. unfold readTap, bind. now rewrite readRegister_eq, E. }
  assert (Hpl0 : bus_reply PL_STATUS 1 w = [] -> fst (readPL w) = 0).
  { intros E. unfold readPL, bind. now rewrite readRegister_eq, E. }
  split; [|split; [|split; assumption]].
  - destruct (bus_reply_one PULSE_SRC w) as [E | [b E]].
    + rewrite (Htap0 E). lia.
    + destruct (reply_byte _ _ _ E) as [Hb Hhd].
      destruct (tap_bits b Hb) as [Htest Hlow].
      unfold readTap, bind.
      rewrite readRegister_eq, Hhd, Htest, negb_involutive.
      destruct (Z.testbit b 7); unfold ret; cbn [fst]; [|lia].
      rewrite Hlow. pose proof (Z.mod_pos_bound b 128 ltac:(lia)). lia.
  - destruct (bus_reply_one PL_STATUS w) as [E | [b E]].
    + right. rewrite (Hpl0 E). lia.
    + destruct (reply_byte _ _ _ E) as [Hb Hhd].
      destruct (pl_bits b Hb) as [Htest Hcode].
      unfold readPL, bind.
      rewrite readRegister_eq, Hhd, Htest, negb_involutive.
      destruct (Z.testbit b 6); unfold ret; cbn [fst].
      * left. apply to_byte_id, LOCKOUT_byte.
      * right. rewrite Hcode.
        destruct (Z.testbit b 1), (Z.testbit b 2); cbn; lia.
Qed.

(** X20: [read] is one burst read and nothing else on the bus: the address
    of OUT_X_MSB sent without a stop and one request for 6 bytes, no
    register write; it changes neither the driver's bus address nor its
    scale. *)
Theorem read_single_burst (w : World S) rawData :
  let a := address (self w) in
  let evs := [EvTransmit a [to_byte (reg_addr OUT_X_MSB)] false;
              EvRequest a 6 (bus_reply OUT_X_MSB 6 w)] in
  trace (snd (read rawData w)) = trace w ++ evs /\
  register_writes evs = [] /\
  address (self (snd (read rawData w))) = a /\
  scale (self (snd (read rawData w))) = scale (self w).
Proof.
  cbv zeta. rewrite read_trace, readRegisters_trace, read_self.
  repeat split.
Qed.

(** X21: what the register reads hand back are bytes: [readRegister]
    returns a value from 0 to 255, and [readRegisters] leaves a buffer of
    bytes a buffer of bytes. *)
Theorem register_reads_are_bytes (w : World S) reg buffer len :
  is_byte (fst (readRegister reg w)) /\
  (Forall is_byte buffer ->
   Forall is_byte (fst (readRegisters reg buffer len w))).
Proof.
  split.
  - rewrite readRegister_eq. cbn [fst].
    destruct (bus_reply_one reg w) as [E | [b E]].
    + rewrite E. cbn. unfold is_byte. lia.
    + destruct (reply_byte _ _ _ E) as [Hb ->]. exact Hb.
  - intros Hbuf.
    unfold readRegisters. cbv zeta. generalize (to_byte len). intros n.
    unfold bind, this, Wire_beginTransmission, Wire_write,
      Wire_endTransmission, Wire_requestFrom, Wire_available.
    cbn.
    destruct (slave_send (address (self w)) (Z.to_nat n)
                (slave_recv (address (self w)) [to_byte (reg_addr reg)]
                   false (device w))) as [bytes d].
    cbn.
    match goal with |- context [if ?c then _ else _] => destruct c end;
      [apply read_loop_bytes, Hbuf | exact Hbuf].
Qed.

End ReadingMethods.

(** * The further theorems at concrete inputs *)

(** The data sheet's addresses are pairwise distinct. *)
Lemma datasheet_addr_inj r1 r2 :
  to_byte (reg_addr (MMA8452Q_h:=datasheet_h) r1)
  = to_byte (reg_addr (MMA8452Q_h:=datasheet_h) r2) -> r1 = r2.
Proof.
  destruct r1, r2; intros H; first [reflexivity | vm_compute in H;
                                                   discriminate H].
Qed.

Lemma available_new_data_bit_witness :
  fst (available (hdr:=datasheet_h) (mock_world (fun _ => 0x08)))
  = Z.b2z (Z.testbit 0x08 3).
Proof.
  assert (H : bus_reply (hdr:=datasheet_h) STATUS_MMA8452Q 1
                (mock_world (fun _ => 0x08)) = [0x08])
    by (vm_compute; reflexivity).
  exact (proj1 (available_new_data_bit _) 0x08 H).
Defined.

Lemma unanswered_read_is_taken_as_zero_witness :
  trace (snd (active (hdr:=datasheet_h) silent_world)) =
  trace silent_world
  ++ read_events (hdr:=datasheet_h) CTRL_REG1 1 silent_world
  ++ [write_event (hdr:=datasheet_h) (address (self silent_world))
        CTRL_REG1 0x01].
Proof.
  assert (H : bus_reply (hdr:=datasheet_h) CTRL_REG1 1 silent_world = [])
    by (vm_compute; reflexivity).
  exact (proj1 (proj1 (unanswered_read_is_taken_as_zero
                         silent_world SCALE_2G ODR_800) H)).
Defined.

Lemma read_short_decodes_stale_array_witness :
  x (self (snd (read (hdr:=datasheet_h) [0x7F; 0xF0; 0x80; 0; 0; 0x10]
                     silent_world)))
  = sample12 (nth 0 [0x7F; 0xF0; 0x80; 0; 0; 0x10] 0)
             (nth 1 [0x7F; 0xF0; 0x80; 0; 0; 0x10] 0).
Proof.
  assert (H : Z.of_nat (length (bus_reply (hdr:=datasheet_h) OUT_X_MSB 6
                                  silent_world)) < 6)
    by (vm_compute; reflexivity).
  exact (proj1 (read_short_decodes_stale_array
                  silent_world [0x7F; 0xF0; 0x80; 0; 0; 0x10] H)).
Defined.

Lemma readRegisters_single_transaction_witness :
  fst (readRegisters (hdr:=datasheet_h) OUT_X_MSB [0; 0; 0] 259
                     (mock_world (fun k => 16 * k)))
  = bus_reply (hdr:=datasheet_h) OUT_X_MSB (to_byte 259)
              (mock_world (fun k => 16 * k)).
Proof.
  assert (Hn : Z.of_nat (length (bus_reply (hdr:=datasheet_h) OUT_X_MSB
                                   (to_byte 259)
                                   (mock_world (fun k => 16 * k))))
               = to_byte 259)
    by (vm_compute; reflexivity).
  assert (Hl : length [0; 0; 0] = Z.to_nat (to_byte 259))
    by (vm_compute; reflexivity).
  exact (proj2 (proj2 (readRegisters_single_transaction
                         (mock_world (fun k => 16 * k)) OUT_X_MSB
                         [0; 0; 0] 259)) Hn Hl).
Defined.

Lemma writeRegisters_one_transmission_witness :
  trace (snd (writeRegisters (hdr:=datasheet_h) PULSE_THSX [1; 2; 3] 258
                             silent_world))
  = trace silent_world
    ++ [EvTransmit (address (self silent_world))
          (to_byte (reg_addr (MMA8452Q_h:=datasheet_h) PULSE_THSX)
           :: map to_byte (firstn (Z.to_nat (to_byte 258)) [1; 2; 3]))
          true].
Proof.
  assert (H : (Z.to_nat (to_byte 258) <= length [1; 2; 3])%nat)
    by (vm_compute; repeat constructor).
  exact (proj1 (writeRegisters_one_transmission silent_world PULSE_THSX
                  [1; 2; 3] 258 H)).
Defined.

Lemma sample12_sign_and_low_nibble_witness :
  (sample12 0x80 0x0F < 0 <-> 128 <= 0x80) /\
  sample12 0x80 0x0F = sample12 0x80 0x00.
Proof.
  destruct (sample12_sign_and_low_nibble 0x80 0x0F 0x00
              ltac:(bounds) ltac:(bounds) ltac:(bounds)) as (Hs & Hn & _).
  split; [exact Hs | exact (Hn eq_refl)].
Defined.

Lemma sample12_bijection_witness :
  (0x12 = 0x12 /\ 0x34 / 16 = 0x3F / 16) /\
  exists hi lo, is_byte hi /\ is_byte lo /\ sample12 hi lo = -1.
Proof.
  destruct sample12_bijection as [Hinj Hsur].
  split.
  - exact (Hinj 0x12 0x34 0x12 0x3F ltac:(bounds) ltac:(bounds)
                ltac:(bounds) ltac:(bounds) eq_refl).
  - exact (Hsur (-1) ltac:(split; discriminate)).
Defined.

Lemma mode_bit_only_witness :
  Z.testbit
    (regs (device (snd (standby (hdr:=datasheet_h)
                                (mock_world (fun _ => 0xFF)))))
          (to_byte (reg_addr (MMA8452Q_h:=datasheet_h) CTRL_REG1))) 5
  = Z.testbit
      (regs (device (mock_world (fun _ => 0xFF)))
            (to_byte (reg_addr (MMA8452Q_h:=datasheet_h) CTRL_REG1))) 5.
Proof.
  exact (proj1 (proj1 (proj2 (proj2 (mode_bit_only (hdr:=datasheet_h)
                                       (mock_world (fun _ => 0xFF)))))
                      5 ltac:(bounds))).
Defined.

Lemma setODR_read_modify_write_witness :
  Z.testbit
    (regs (device (snd (setODR (hdr:=datasheet_h) ODR_100
                               (mock_world (fun _ => 0xFF)))))
          (to_byte (reg_addr (MMA8452Q_h:=datasheet_h) CTRL_REG1))) 0
  = Z.testbit
      (regs (device (mock_world (fun _ => 0xFF)))
            (to_byte (reg_addr (MMA8452Q_h:=datasheet_h) CTRL_REG1))) 0.
Proof.
  assert (Hi : 0 <= 0 < 3 \/ 6 <= 0 < 8) by (left; bounds).
  exact (proj1 (proj2 (setODR_read_modify_write (hdr:=datasheet_h)
                         (mock_world (fun _ => 0xFF)) ODR_100 ODR_50))
               0 Hi).
Defined.

Lemma setupPL_enables_detection_witness :
  Z.testbit
    (regs (device (snd (setupPL (hdr:=datasheet_h)
                                (mock_world (fun _ => 0x00)))))
          (to_byte (reg_addr (MMA8452Q_h:=datasheet_h) PL_CFG))) 6 = true.
Proof.
  assert (Hne : to_byte (reg_addr (MMA8452Q_h:=datasheet_h) PL_CFG)
                <> to_byte (reg_addr (MMA8452Q_h:=datasheet_h) PL_COUNT))
    by (vm_compute; discriminate).
  exact (proj1 (proj1 (proj2 (proj2 (setupPL_enables_detection
                                       (hdr:=datasheet_h))
                                    (mock_world (fun _ => 0x00))))
                      Hne)).
Defined.

Lemma write_then_read_register_witness :
  fst (readRegister (hdr:=datasheet_h) PL_COUNT
         (snd (writeRegister (hdr:=datasheet_h) PL_CFG 0x40
                             (mock_world (fun _ => 0x07)))))
  = fst (readRegister (hdr:=datasheet_h) PL_COUNT
                      (mock_world (fun _ => 0x07))).
Proof.
  assert (Hne : to_byte (reg_addr (MMA8452Q_h:=datasheet_h) PL_COUNT)
                <> to_byte (reg_addr (MMA8452Q_h:=datasheet_h) PL_CFG))
    by (vm_compute; discriminate).
  exact (proj2 (write_then_read_register (hdr:=datasheet_h)
                  (mock_world (fun _ => 0x07)) PL_CFG PL_COUNT 0x40) Hne).
Defined.

Lemma burst_write_then_read_witness :
  fst (readRegisters (hdr:=datasheet_h) PULSE_THSX [0; 0; 0] 259
         (snd (writeRegisters (hdr:=datasheet_h) PULSE_THSX [0x10; 0x20; 0x30]
                              259 (mock_world (fun _ => 0)))))
  = map to_byte [0x10; 0x20; 0x30].
Proof.
  assert (Hdata : length [0x10; 0x20; 0x30] = Z.to_nat (to_byte 259))
    by (vm_compute; reflexivity).
  assert (Hbuf : length [0; 0; 0] = Z.to_nat (to_byte 259))
    by (vm_compute; reflexivity).
  exact (burst_write_then_read (hdr:=datasheet_h) (mock_world (fun _ => 0))
           PULSE_THSX [0x10; 0x20; 0x30] [0; 0; 0] 259 Hdata Hbuf).
Defined.

Lemma init_bus_traffic_witness :
  exists evs,
    trace (snd (init (hdr:=datasheet_h) SCALE_2G ODR_800
                     (mock_world (identified_regs 0))))
    = trace (mock_world (identified_regs 0)) ++ evs /\
    map fst (register_writes evs) =
      map (fun r => to_byte (reg_addr (MMA8452Q_h:=datasheet_h) r))
          [CTRL_REG1; XYZ_DATA_CFG; CTRL_REG1; PL_CFG; PL_COUNT;
           PULSE_THSZ; PULSE_CFG; PULSE_TMLT; PULSE_LTCY; PULSE_WIND;
           CTRL_REG1].
Proof.
  assert (Hid : bus_reply (hdr:=datasheet_h) WHO_AM_I 1
                  (mock_world (identified_regs 0)) = [0x2A])
    by (vm_compute; reflexivity).
  destruct (init_bus_traffic (hdr:=datasheet_h)
              (mock_world (identified_regs 0)) SCALE_2G ODR_800)
    as (evs & Ht & _ & _ & Hok).
  exists evs. split; [exact Ht | exact (proj1 (Hok Hid))].
Defined.

Lemma init_configures_mock_witness :
  fst (init (hdr:=datasheet_h) SCALE_8G ODR_100
            (mock_world (identified_regs 0xFF))) = 1 /\
  regs (device (snd (init (hdr:=datasheet_h) SCALE_8G ODR_100
                          (mock_world (identified_regs 0xFF)))))
       (to_byte (reg_addr (MMA8452Q_h:=datasheet_h) PL_COUNT)) = 0x50.
Proof.
  assert (Hid : to_byte (regs (device (mock_world (identified_regs 0xFF)))
                              (to_byte (reg_addr (MMA8452Q_h:=datasheet_h)
                                                 WHO_AM_I))) = 0x2A)
    by (vm_compute; reflexivity).
  destruct (init_configures_mock (hdr:=datasheet_h) datasheet_addr_inj
              (mock_world (identified_regs 0xFF)) SCALE_8G ODR_100 Hid)
    as (Hret & _ & _ & _ & Hcount & _).
  split; [exact Hret | exact Hcount].
Defined.

Lemma polling_results_bounded_witness :
  fst (readTap (hdr:=datasheet_h) silent_world) = 0 /\
  fst (readPL (hdr:=datasheet_h) silent_world) = 0.
Proof.
  assert (H1 : bus_reply (hdr:=datasheet_h) PULSE_SRC 1 silent_world = [])
    by (vm_compute; reflexivity).
  assert (H2 : bus_reply (hdr:=datasheet_h) PL_STATUS 1 silent_world = [])
    by (vm_compute; reflexivity).
  destruct (polling_results_bounded (hdr:=datasheet_h) silent_world)
    as (_ & _ & Htap & Hpl).
  split; [exact (Htap H1) | exact (Hpl H2)].
Defined.

Lemma register_reads_are_bytes_witness :
  Forall is_byte
    (fst (readRegisters (hdr:=datasheet_h) OUT_X_MSB [1; 2; 3] 3
                        (mock_world (fun k => 300 + k)))).
Proof.
  assert (H : Forall is_byte [1; 2; 3])
    by (repeat constructor; discriminate).
  exact (proj2 (register_reads_are_bytes (mock_world (fun k => 300 + k))
                  OUT_X_MSB [1; 2; 3] 3) H).
Defined.
